(** * eco_back: the generic CRUD helper layer (gormtool) and its demo routes

    A shallow embedding of [gormtool/crud.go] and [main.go].  The Go code is
    glue between three collaborators: the web framework's request context,
    the ORM's store handle and an optional cache client.  Each of them is
    represented by a small executable model; the handlers themselves are
    transcribed statement by statement on top of these models. *)

From Stdlib Require Import ZArith Lia Bool Ascii String.
From stdpp Require Import base option list strings gmap pretty.

Local Open Scope string_scope.
Local Open Scope list_scope.
Local Open Scope Z_scope.

(** ** Go's [int] and [strconv.Atoi] *)

Module GoInt.

(** [int] is 64 bits wide on the platforms the server is built for. *)
Definition MaxInt : Z := 2 ^ 63 - 1.
Definition MinInt : Z := - 2 ^ 63.

(** Two's-complement wrap-around of an arithmetic result. *)
Definition wrap (z : Z) : Z := (z + 2 ^ 63) mod 2 ^ 64 - 2 ^ 63.

Definition sub (a b : Z) : Z := wrap (a - b).
Definition mul (a b : Z) : Z := wrap (a * b).

End GoInt.

(** The errors that travel through the handlers. *)
Inductive error : Type :=
| ErrSyntax                (* strconv: invalid syntax *)
| ErrRange                 (* strconv: value out of range *)
| ErrBind                  (* the JSON body could not be bound *)
| ErrRecordNotFound        (* gorm.ErrRecordNotFound *)
| ErrMissingWhereClause    (* gorm.ErrMissingWhereClause *)
| ErrConstraint            (* a uniqueness constraint of the schema *)
| ErrInvalidField          (* the store rejects a column or a direction *)
| ErrDriver.               (* any other failure reported by the driver *)

#[global] Instance error_eq_dec : EqDecision error.
Proof. solve_decision. Defined.

Module strconv.

Definition is_digit (c : ascii) : bool :=
  let n := Z.of_nat (nat_of_ascii c) in (48 <=? n) && (n <=? 57).

Definition digit_val (c : ascii) : Z := Z.of_nat (nat_of_ascii c) - 48.

(** Base-10 accumulation; [None] as soon as a non-digit is met. *)
Fixpoint digits (s : string) (acc : Z) : option Z :=
  match s with
  | EmptyString => Some acc
  | String c r => if is_digit c then digits r (10 * acc + digit_val c) else None
  end.

(** Splits an optional leading sign off. *)
Definition sign (s : string) : bool * string :=
  match s with
  | String "+"%char r => (false, r)
  | String "-"%char r => (true, r)
  | _ => (false, s)
  end.

(** [strconv.Atoi]: on a syntax error the value is 0; on a range error it
    is the nearest representable value. *)
Definition Atoi (s : string) : Z * option error :=
  let '(neg, body) := sign s in
  match body with
  | EmptyString => (0, Some ErrSyntax)
  | _ =>
      match digits body 0 with
      | None => (0, Some ErrSyntax)
      | Some n =>
          let v := if neg then - n else n in
          if GoInt.MaxInt <? v then (GoInt.MaxInt, Some ErrRange)
          else if v <? GoInt.MinInt then (GoInt.MinInt, Some ErrRange)
          else (v, None)
      end
  end.


End strconv.

(** ** Entities (models/user.go)

    [gorm.Model] contributes the primary key and the soft-deletion marker.
    Its two audit timestamps (created/updated) are stamped by the ORM on
    every write and are never read by a handler; they are left out of the
    rows.  Instants are integers. *)

Record Tag := { Tag_ID : Z; Tag_Name : string }.

Record Profile := {
  Profile_ID : Z;
  Profile_UserID : Z;
  Avatar : string;
  Bio : string
}.

Record User := {
  ID : Z;
  DeletedAt : option Z;         (* [None] is SQL NULL: the record is active *)
  Name : string;
  Age : Z;
  Tags : list Tag               (* many2many:user_tags, filled by preloading *)
}.

#[global] Instance Tag_eq_dec : EqDecision Tag.
Proof. solve_decision. Defined.
#[global] Instance Profile_eq_dec : EqDecision Profile.
Proof. solve_decision. Defined.
#[global] Instance User_eq_dec : EqDecision User.
Proof. solve_decision. Defined.

(** ** Dynamic values ([interface{}]) carried by query conditions

    The values of the builder's wire format: what a decoded JSON document
    holds, a JSON array being a [[]interface{}].  Numbers are integers
    here. *)

#[warnings="-register-all"]
Inductive Any : Type :=
| VNil
| VBool (b : bool)
| VInt (z : Z)
| VStr (s : string)
| VSeq (l : list Any).          (* []interface{} *)

Fixpoint Any_eqb (a b : Any) : bool :=
  match a, b with
  | VNil, VNil => true
  | VBool x, VBool y => Bool.eqb x y
  | VInt x, VInt y => x =? y
  | VStr x, VStr y => String.eqb x y
  | VSeq x, VSeq y =>
      (fix go (x y : list Any) : bool :=
         match x, y with
         | [], [] => true
         | v :: x', w :: y' => Any_eqb v w && go x' y'
         | _, _ => false
         end) x y
  | _, _ => false
  end.

(** ** Store: the relational state behind the ORM handle *)

Record Store := {
  users : list User;
  profiles : list Profile;
  tags : list Tag;
  user_tags : list (Z * Z)      (* join rows (user id, tag id) *)
}.

(** The handle the handlers hold.  [driver] scripts the outcome of the
    statements still to come ([true]: the driver reports an error for that
    statement; an exhausted script means no more errors), so that every
    error branch of a handler can be reached.  [now] is the instant the ORM
    stamps on a soft delete. *)
Record gormDB := {
  data : Store;
  driver : list bool;
  now : Z
}.

Definition with_data (db : gormDB) (s : Store) : gormDB :=
  {| data := s; driver := driver db; now := now db |}.

Definition with_users (s : Store) (us : list User) : Store :=
  {| users := us; profiles := profiles s; tags := tags s; user_tags := user_tags s |}.

(** What a finished statement reports ([tx.Error], [tx.RowsAffected]). *)
Record Result := { Error : option error; RowsAffected : Z }.

Module gorm.

(** One round trip to the driver: consumes one entry of the script. *)
Definition roundtrip (db : gormDB) : bool * gormDB :=
  match driver db with
  | [] => (false, db)
  | b :: rest => (b, {| data := data db; driver := rest; now := now db |})
  end.

Definition failed (e : error) : Result := {| Error := Some e; RowsAffected := 0 |}.
Definition affected (n : Z) : Result := {| Error := None; RowsAffected := n |}.

(** Rows of [users] with a given primary key, deleted ones included. *)
Definition has_id (id : Z) (u : User) : bool := ID u =? id.
Definition active (u : User) : bool := bool_decide (DeletedAt u = None).

Definition find_unscoped (s : Store) (id : Z) : option User :=
  head (filter (fun u => has_id id u = true) (users s)).
Definition find_active (s : Store) (id : Z) : option User :=
  head (filter (fun u => (has_id id u && active u) = true) (users s)).

(** Next value of an auto-increment key. *)
Definition next_id (ids : list Z) : Z := 1 + foldr Z.max 0 ids.

Definition set_ID (u : User) (id : Z) : User :=
  {| ID := id; DeletedAt := DeletedAt u; Name := Name u; Age := Age u; Tags := Tags u |}.
Definition set_Tags (u : User) (ts : list Tag) : User :=
  {| ID := ID u; DeletedAt := DeletedAt u; Name := Name u; Age := Age u; Tags := ts |}.

(** The columns of a struct: what one row of [users] holds. *)
Definition row (u : User) : User := set_Tags u [].

(** [db.First(&user, id)] into a fresh struct: the columns of the active
    row with that key; the association is not loaded. *)
Definition First (db : gormDB) (id : Z) : gormDB * (error + User) :=
  let '(bad, db) := roundtrip db in
  if bad then (db, inl ErrDriver)
  else match find_active (data db) id with
       | Some u => (db, inr (row u))
       | None => (db, inl ErrRecordNotFound)
       end.

(** [db.Delete(&user, id)] on a model with a deletion marker: an UPDATE
    stamping the marker of the active rows with that key. *)
Definition mark (t : Z) (id : Z) (u : User) : User :=
  if has_id id u && active u
  then {| ID := ID u; DeletedAt := Some t; Name := Name u; Age := Age u; Tags := Tags u |}
  else u.

Definition Delete (db : gormDB) (id : Z) : gormDB * Result :=
  let '(bad, db) := roundtrip db in
  if bad then (db, failed ErrDriver)
  else
    let hit := filter (fun u => (has_id id u && active u) = true) (users (data db)) in
    (with_data db (with_users (data db) (map (mark (now db) id) (users (data db)))),
     affected (Z.of_nat (length hit))).

(** [db.Unscoped().Delete(&User{}, ids)]: rows with a listed key are
    removed for good.  With no key at all the ORM refuses to build a
    DELETE without a WHERE clause and sends nothing to the driver. *)
Definition listed (ids : list Z) (u : User) : bool :=
  bool_decide (ID u ∈ ids).

Definition UnscopedDelete (db : gormDB) (ids : list Z) : gormDB * Result :=
  match ids with
  | [] => (db, failed ErrMissingWhereClause)
  | _ =>
      let '(bad, db) := roundtrip db in
      if bad then (db, failed ErrDriver)
      else
        let gone := filter (fun u => listed ids u = true) (users (data db)) in
        let kept := filter (fun u => listed ids u = false) (users (data db)) in
        (with_data db (with_users (data db) kept), affected (Z.of_nat (length gone)))
  end.

(** [db.Unscoped().Model(&user).Where("id = ?", id).Update("deleted_at", nil)]:
    every row with that key is matched, whatever its marker. *)
Definition unmark (id : Z) (u : User) : User :=
  if has_id id u
  then {| ID := ID u; DeletedAt := None; Name := Name u; Age := Age u; Tags := Tags u |}
  else u.

Definition UnscopedRestore (db : gormDB) (id : Z) : gormDB * Result :=
  let '(bad, db) := roundtrip db in
  if bad then (db, failed ErrDriver)
  else
    let hit := filter (fun u => has_id id u = true) (users (data db)) in
    (with_data db (with_users (data db) (map (unmark id) (users (data db)))),
     affected (Z.of_nat (length hit))).

(** Auto-saving of the many2many association [Tags], as done after the
    owner is written and by [Association("Tags").Append]: the tags are
    inserted with ON CONFLICT DO NOTHING (a tag whose key or unique name
    is taken is skipped and keeps the key it came with; an inserted tag
    with key 0 receives the next key), then the join rows are inserted,
    again skipping the ones already there. *)
Definition tag_taken (table : list Tag) (t : Tag) : bool :=
  existsb (fun r => ((Tag_ID t =? Tag_ID r) && negb (Tag_ID t =? 0))
                    || String.eqb (Tag_Name t) (Tag_Name r)) table.

Fixpoint insert_tags (ts : list Tag) (table : list Tag) : list Tag * list Tag :=
  match ts with
  | [] => (table, [])
  | t :: rest =>
      if tag_taken table t then
        let '(table', rest') := insert_tags rest table in (table', t :: rest')
      else
        let t' := if Tag_ID t =? 0
                  then {| Tag_ID := next_id (map Tag_ID table); Tag_Name := Tag_Name t |}
                  else t in
        let '(table', rest') := insert_tags rest (table ++ [t']) in
        (table', t' :: rest')
  end.

Definition link (uid : Z) (joins : list (Z * Z)) (t : Tag) : list (Z * Z) :=
  if bool_decide ((uid, Tag_ID t) ∈ joins) then joins else joins ++ [(uid, Tag_ID t)].

Definition save_tags (db : gormDB) (uid : Z) (ts : list Tag)
  : gormDB * option error * list Tag :=
  match ts with
  | [] => (db, None, ts)
  | _ =>
      let '(bad, db) := roundtrip db in
      if bad then (db, Some ErrDriver, ts)
      else
        let '(table, ts') := insert_tags ts (tags (data db)) in
        let s1 := {| users := users (data db); profiles := profiles (data db);
                     tags := table; user_tags := user_tags (data db) |} in
        let db := with_data db s1 in
        let '(bad, db) := roundtrip db in
        if bad then (db, Some ErrDriver, ts')
        else
          let s2 := {| users := users s1; profiles := profiles s1; tags := tags s1;
                       user_tags := foldl (link uid) (user_tags s1) ts' |} in
          (with_data db s2, None, ts')
  end.

(** [tx.Create(&user)]: an INSERT; a key that is already in the table
    violates the primary key; key 0 asks for the next key, which is
    written back into the struct. *)
Definition CreateUser (db : gormDB) (u : User) : gormDB * option error * User :=
  let '(bad, db) := roundtrip db in
  if bad then (db, Some ErrDriver, u)
  else if negb (ID u =? 0) && bool_decide (is_Some (find_unscoped (data db) (ID u)))
  then (db, Some ErrConstraint, u)
  else
    let u := if ID u =? 0 then set_ID u (next_id (map ID (users (data db)))) else u in
    let db := with_data db (with_users (data db) (users (data db) ++ [row u])) in
    let '(db, err, ts) := save_tags db (ID u) (Tags u) in
    (db, err, set_Tags u ts).

Definition set_Profile_ID (p : Profile) (id : Z) : Profile :=
  {| Profile_ID := id; Profile_UserID := Profile_UserID p; Avatar := Avatar p; Bio := Bio p |}.

(** [tx.Create(&profile)]. *)
Definition CreateProfile (db : gormDB) (p : Profile) : gormDB * option error * Profile :=
  let '(bad, db) := roundtrip db in
  if bad then (db, Some ErrDriver, p)
  else if negb (Profile_ID p =? 0)
          && existsb (fun r => Profile_ID r =? Profile_ID p) (profiles (data db))
  then (db, Some ErrConstraint, p)
  else
    let p := if Profile_ID p =? 0
             then set_Profile_ID p (next_id (map Profile_ID (profiles (data db))))
             else p in
    let s := {| users := users (data db); profiles := profiles (data db) ++ [p];
                tags := tags (data db); user_tags := user_tags (data db) |} in
    (with_data db s, None, p).

(** [tx.Model(&user).Association("Tags").Append(tags)]: the tags are also
    appended to the field of the struct. *)
Definition AppendTags (db : gormDB) (u : User) (ts : list Tag)
  : gormDB * option error * User :=
  let '(db, err, ts) := save_tags db (ID u) ts in
  (db, err, set_Tags u (Tags u ++ ts)).

(** [db.Save(&user)] writes every column of the struct.  With key 0 it is
    a [Create].  Otherwise an UPDATE of the active row with that key is
    tried first; when it matches nothing, an INSERT that overwrites on a
    key conflict follows.  Either way the row with the struct's key ends
    up holding the struct's columns. *)
Definition overwrite (u : User) (r : User) : User :=
  if has_id (ID u) r then row u else r.

Definition Save (db : gormDB) (u : User) : gormDB * option error * User :=
  if ID u =? 0 then CreateUser db u
  else
    let '(bad, db) := roundtrip db in
    if bad then (db, Some ErrDriver, u)
    else
      match find_active (data db) (ID u) with
      | Some _ =>
          let db := with_data db (with_users (data db) (map (overwrite u) (users (data db)))) in
          let '(db, err, ts) := save_tags db (ID u) (Tags u) in
          (db, err, set_Tags u ts)
      | None =>
          let '(bad, db) := roundtrip db in
          if bad then (db, Some ErrDriver, u)
          else
            let us := match find_unscoped (data db) (ID u) with
                      | Some _ => map (overwrite u) (users (data db))
                      | None => users (data db) ++ [row u]
                      end in
            let db := with_data db (with_users (data db) us) in
            let '(db, err, ts) := save_tags db (ID u) (Tags u) in
            (db, err, set_Tags u ts)
      end.

(** [db.Transaction(fc)]: BEGIN, run [fc] on the transaction handle, then
    COMMIT when [fc] returned nil and ROLLBACK otherwise (also when the
    COMMIT itself fails).  A rollback restores the data as it was at
    BEGIN.  [S] is the state of the variables the closure captures. *)
Definition rollback (db tx : gormDB) : gormDB :=
  let '(_, tx) := roundtrip tx in with_data tx (data db).

Definition Transaction {S : Type} (db : gormDB) (s : S)
    (fc : gormDB -> S -> gormDB * S * option error) : gormDB * S * option error :=
  let '(bad, tx) := roundtrip db in
  if bad then (tx, s, Some ErrDriver)
  else
    let '(tx, s, err) := fc tx s in
    match err with
    | Some e => (rollback db tx, s, Some e)
    | None =>
        let '(bad, tx) := roundtrip tx in
        if bad then (rollback db tx, s, Some ErrDriver)
        else (tx, s, None)
    end.

End gorm.

(** ** Query statements

    The clauses a chained [*gorm.DB] has accumulated.  A predicate records
    which of the builder's format strings produced it, together with the
    field and the bound arguments; [sql] gives back the text and arguments
    handed to [db.Where]. *)

Inductive Predicate : Type :=
| Compare (field op : string) (v : Any)        (* "%s %s ?"  *)
| Like (field pattern : string)                (* "%s LIKE ?" *)
| In_ (field : string) (v : Any)               (* "%s IN (?)" *)
| NotIn (field : string) (v : Any)             (* "%s NOT IN (?)" *)
| Between (field : string) (lo hi : Any).      (* "%s BETWEEN ? AND ?" *)


Record Stmt := {
  wheres : list Predicate;
  orders : list (string * string);   (* "%s %s": field, direction *)
  preloads : list string;
  limit : option Z;
  offset : option Z
}.

Definition session : Stmt :=
  {| wheres := []; orders := []; preloads := []; limit := None; offset := None |}.

Definition Where (db : Stmt) (p : Predicate) : Stmt :=
  {| wheres := wheres db ++ [p]; orders := orders db; preloads := preloads db;
     limit := limit db; offset := offset db |}.
Definition Order (db : Stmt) (field direction : string) : Stmt :=
  {| wheres := wheres db; orders := orders db ++ [(field, direction)];
     preloads := preloads db; limit := limit db; offset := offset db |}.
Definition Preload (db : Stmt) (relation : string) : Stmt :=
  {| wheres := wheres db; orders := orders db; preloads := preloads db ++ [relation];
     limit := limit db; offset := offset db |}.
Definition Limit (db : Stmt) (n : Z) : Stmt :=
  {| wheres := wheres db; orders := orders db; preloads := preloads db;
     limit := Some n; offset := offset db |}.
Definition Offset (db : Stmt) (n : Z) : Stmt :=
  {| wheres := wheres db; orders := orders db; preloads := preloads db;
     limit := limit db; offset := Some n |}.

(** ** How the store evaluates a statement over [users] *)

Module sqlstore.

Definition columns : list string := ["id"; "name"; "age"; "deleted_at"].

Definition column (f : string) (u : User) : option Any :=
  if String.eqb f "id" then Some (VInt (ID u))
  else if String.eqb f "name" then Some (VStr (Name u))
  else if String.eqb f "age" then Some (VInt (Age u))
  else if String.eqb f "deleted_at"
  then Some (match DeletedAt u with Some t => VInt t | None => VNil end)
  else None.

(** Values of the same kind are ordered; others do not compare. *)
Definition compare (a b : Any) : option comparison :=
  match a, b with
  | VInt x, VInt y => Some (x ?= y)
  | VStr x, VStr y => Some (String.compare x y)
  | _, _ => None
  end.

Definition operators : list string := ["="; "!="; ">"; "<"; ">="; "<="].

Definition holds (op : string) (c : comparison) : bool :=
  if String.eqb op "=" then match c with Eq => true | _ => false end
  else if String.eqb op "!=" then match c with Eq => false | _ => true end
  else if String.eqb op ">" then match c with Gt => true | _ => false end
  else if String.eqb op "<" then match c with Lt => true | _ => false end
  else if String.eqb op ">=" then match c with Lt => false | _ => true end
  else if String.eqb op "<=" then match c with Gt => false | _ => true end
  else false.

(** LIKE patterns: [%] stands for any run of characters, [_] for one
    character.  Letter case is compared as is. *)
Fixpoint like (pat s : string) : bool :=
  match pat with
  | EmptyString => match s with EmptyString => true | _ => false end
  | String p pat' =>
      if Ascii.eqb p "%" then
        (fix skip (s : string) : bool :=
           like pat' s || match s with
                          | EmptyString => false
                          | String _ s' => skip s'
                          end) s
      else
        match s with
        | EmptyString => false
        | String c s' => (Ascii.eqb p "_" || Ascii.eqb p c) && like pat' s'
        end
  end.

Definition member (x : Any) (v : Any) : bool :=
  match v with
  | VSeq l => existsb (Any_eqb x) l
  | _ => Any_eqb x v
  end.

Definition le (a b : Any) : bool :=
  match compare a b with Some Gt | None => false | Some _ => true end.

Definition eval (p : Predicate) (u : User) : bool :=
  match p with
  | Compare f op v =>
      match column f u with
      | Some x => match compare x v with Some c => holds op c | None => false end
      | None => false
      end
  | Like f pat =>
      match column f u with Some (VStr s) => like pat s | _ => false end
  | In_ f v =>
      match column f u with Some x => member x v | None => false end
  | NotIn f v =>
      match column f u with
      | Some VNil | None => false
      | Some x => negb (member x v)
      end
  | Between f lo hi =>
      match column f u with Some x => le lo x && le x hi | None => false end
  end.

Definition field_of (p : Predicate) : string :=
  match p with
  | Compare f _ _ | Like f _ | In_ f _ | NotIn f _ | Between f _ _ => f
  end.

Definition is_column (f : string) : bool := existsb (String.eqb f) columns.

Definition valid_predicate (p : Predicate) : bool :=
  is_column (field_of p)
  && match p with Compare _ op _ => existsb (String.eqb op) operators | _ => true end.

Definition descending (direction : string) : option bool :=
  if String.eqb direction "DESC" || String.eqb direction "desc" then Some true
  else if String.eqb direction "ASC" || String.eqb direction "asc"
          || String.eqb direction EmptyString then Some false
  else None.

Definition valid_order (o : string * string) : bool :=
  is_column (fst o) && bool_decide (is_Some (descending (snd o))).

(** ORDER BY: earlier keys are more significant; rows equal on every key
    keep their relative order. *)
Definition key_compare (o : string * string) (a b : User) : comparison :=
  match column (fst o) a, column (fst o) b with
  | Some x, Some y =>
      match compare x y with
      | Some c => if default false (descending (snd o)) then CompOpp c else c
      | None => Eq
      end
  | _, _ => Eq
  end.

Fixpoint keys_compare (os : list (string * string)) (a b : User) : comparison :=
  match os with
  | [] => Eq
  | o :: os' => match key_compare o a b with Eq => keys_compare os' a b | c => c end
  end.

Fixpoint insert_row (os : list (string * string)) (x : User) (l : list User) : list User :=
  match l with
  | [] => [x]
  | y :: l' => match keys_compare os x y with
               | Gt => y :: insert_row os x l'
               | _ => x :: l
               end
  end.

Definition order_by (os : list (string * string)) (l : list User) : list User :=
  foldr (insert_row os) [] l.

(** The rows a statement selects: active and satisfying every predicate. *)
Definition selects (st : Stmt) (u : User) : bool :=
  gorm.active u && forallb (fun p => eval p u) (wheres st).

Definition matching (st : Stmt) (s : Store) : list User :=
  filter (fun u => selects st u = true) (users s).

(** LIMIT applies when it is not negative, OFFSET when it is positive. *)
Definition window (st : Stmt) (rows : list User) : list User :=
  let rows := match offset st with
              | Some o => if 0 <? o then drop (Z.to_nat o) rows else rows
              | None => rows
              end in
  match limit st with
  | Some n => if 0 <=? n then take (Z.to_nat n) rows else rows
  | None => rows
  end.

End sqlstore.

(** The two finishers the pager uses. *)
Module finisher.

(** [db.Model(&users).Count(&total)]: ORDER BY and preloads play no part
    in a count. *)
Definition Count (h : gormDB) (db : Stmt) : gormDB * (error + Z) :=
  let '(bad, h) := gorm.roundtrip h in
  if bad then (h, inl ErrDriver)
  else if negb (forallb sqlstore.valid_predicate (wheres db)) then (h, inl ErrInvalidField)
  else (h, inr (Z.of_nat (length (sqlstore.matching db (data h))))).

Definition tags_of (s : Store) (uid : Z) : list Tag :=
  filter (fun t => (uid, Tag_ID t) ∈ user_tags s) (tags s).

(** Preloading runs one more query per relation; [User] has the single
    relation [Tags]. *)
Fixpoint preload (h : gormDB) (relations : list string) (rows : list User)
  : gormDB * (error + list User) :=
  match relations with
  | [] => (h, inr rows)
  | r :: rest =>
      if String.eqb r "Tags" then
        let '(bad, h) := gorm.roundtrip h in
        if bad then (h, inl ErrDriver)
        else preload h rest
               (map (fun u => gorm.set_Tags u (tags_of (data h) (ID u))) rows)
      else (h, inl ErrInvalidField)
  end.

(** [db.Find(&users)]. *)
Definition Find (h : gormDB) (db : Stmt) : gormDB * (error + list User) :=
  let '(bad, h) := gorm.roundtrip h in
  if bad then (h, inl ErrDriver)
  else if negb (forallb sqlstore.valid_predicate (wheres db)
                && forallb sqlstore.valid_order (orders db))
  then (h, inl ErrInvalidField)
  else
    let rows := sqlstore.window db
                  (sqlstore.order_by (orders db) (sqlstore.matching db (data h))) in
    preload h (preloads db) rows.

End finisher.

(** ** Cache: the optional Redis client

    Entries hold the JSON text written by [SetToCache]; [Encoded u] is the
    encoding of [u], [Raw s] any other text, which does not decode into the
    model.  A client that is not [alive] answers every command with an
    error.  Expiry after [CacheTTL] is a matter of elapsed time and is not
    represented. *)

Inductive blob : Type :=
| Encoded (u : User)
| Raw (s : string).

Record Redis := { entries : gmap string blob; alive : bool }.

(** ** Request context (gin) and what a handler writes back *)

Record Context (B : Type) := {
  Params : list (string * string);      (* path parameters *)
  QueryArgs : list (string * string);   (* URL query, in order *)
  Body : option B                       (* the JSON body, if it binds *)
}.
Arguments Params {B} _.
Arguments QueryArgs {B} _.
Arguments Body {B} _.

Fixpoint assoc (key : string) (l : list (string * string)) : option string :=
  match l with
  | [] => None
  | (k, v) :: rest => if String.eqb k key then Some v else assoc key rest
  end.

Definition Param {B} (c : Context B) (key : string) : string :=
  default EmptyString (assoc key (Params c)).

Definition DefaultQuery {B} (c : Context B) (key defaultValue : string) : string :=
  default defaultValue (assoc key (QueryArgs c)).

Definition ShouldBindJSON {B} (c : Context B) : error + B :=
  match Body c with
  | Some b => inr b
  | None => inl ErrBind
  end.

Module Pagination.
Record t := { Page : Z; PageSize : Z; Total : Z }.
End Pagination.

Inductive Payload : Type :=
| NoData
| OneUser (u : User)
| ManyUsers (us : list User).

Record Response := {
  Code : Z;
  Message : string;
  Data : Payload;
  Page : option Pagination.t
}.

(** The bodies passed to [c.JSON]: the envelope of crud.go, or one of the
    ad-hoc [gin.H] maps of main.go. *)
Inductive JSON : Type :=
| Envelope (r : Response)
| H_msg (e : error)              (* {"msg": err.Error()} *)
| H_data (u : User)              (* {"data": user} *)
| H_affected (n : Z).            (* {"affected": n} *)

Record Reply := { Status : Z; Written : JSON }.

Definition StatusOK : Z := 200.
Definition StatusCreated : Z := 201.
Definition StatusBadRequest : Z := 400.
Definition StatusNotFound : Z := 404.
Definition StatusInternalServerError : Z := 500.

Definition respond (code : Z) (message : string) (d : Payload) : Reply :=
  {| Status := code;
     Written := Envelope {| Code := code; Message := message; Data := d; Page := None |} |}.

(** A Go call either returns or panics. *)
Inductive Outcome (A : Type) : Type :=
| Done (a : A)
| Panic.
Arguments Done {A} _.
Arguments Panic {A}.

(** ** Package gormtool (gormtool/crud.go)

    The handlers are written for the model [*models.User], the one model
    the routes of main.go pass in.  Logging ([LogOperation]) only writes to
    the log stream and is left out. *)

Module QueryCondition.
Record t := { Field : string; Operator : string; Value : Any }.
End QueryCondition.

Module SortCondition.
Record t := { Field : string; Direction : string }.
End SortCondition.

Record QueryBuilder := {
  Conditions : list QueryCondition.t;
  Sorts : list SortCondition.t;
  Preloads : list string
}.

Record CRUDTool := {
  DB : gormDB;
  RedisClient : option Redis      (* [None] is the nil client *)
}.

Definition with_DB (t : CRUDTool) (h : gormDB) : CRUDTool :=
  {| DB := h; RedisClient := RedisClient t |}.

(** The fields of a JSON body bound onto a [User]: a key that is absent
    from the body leaves the field of the struct as it is. *)
Record UserJSON := {
  json_ID : option Z;
  json_DeletedAt : option (option Z);
  json_Name : option string;
  json_Age : option Z;
  json_Tags : option (list Tag)
}.

Definition unmarshal (b : UserJSON) (u : User) : User :=
  {| ID := default (ID u) (json_ID b);
     DeletedAt := default (DeletedAt u) (json_DeletedAt b);
     Name := default (Name u) (json_Name b);
     Age := default (Age u) (json_Age b);
     Tags := default (Tags u) (json_Tags b) |}.

(** The zero value [models.User{}]. *)
Definition zero_User : User :=
  {| ID := 0; DeletedAt := None; Name := EmptyString; Age := 0; Tags := [] |}.

Module gormtool.

(** [fmt.Sprintf("%T:%v", model, id)] for a [*models.User]. *)
Definition GenerateCacheKey (id : Z) : string :=
  ("*models.User:" ++ pretty id)%string.

Definition GetFromCache (t : CRUDTool) (key : string) (result : User) : bool * User :=
  match RedisClient t with
  | None => (false, result)
  | Some rdb =>
      if negb (alive rdb) then (false, result)
      else match entries rdb !! key with
           | None => (false, result)                (* redis.Nil *)
           | Some (Raw _) => (false, result)        (* json.Unmarshal fails *)
           | Some (Encoded u) => (true, u)
           end
  end.

Definition SetToCache (t : CRUDTool) (key : string) (data : User)
  : CRUDTool * option error :=
  match RedisClient t with
  | None => (t, None)
  | Some rdb =>
      if negb (alive rdb) then (t, Some ErrDriver)
      else ({| DB := DB t;
               RedisClient := Some {| entries := <[key := Encoded data]> (entries rdb);
                                      alive := alive rdb |} |}, None)
  end.

Definition DeleteFromCache (t : CRUDTool) (key : string) : CRUDTool * option error :=
  match RedisClient t with
  | None => (t, None)
  | Some rdb =>
      if negb (alive rdb) then (t, Some ErrDriver)
      else ({| DB := DB t;
               RedisClient := Some {| entries := delete key (entries rdb);
                                      alive := alive rdb |} |}, None)
  end.

(** [WithTransaction]: the ORM's transaction around [fn]. *)
Definition WithTransaction {S : Type} (t : CRUDTool) (s : S)
    (fn : gormDB -> S -> gormDB * S * option error) : CRUDTool * S * option error :=
  let '(h, s, err) := gorm.Transaction (DB t) s (fun tx s => fn tx s) in
  (with_DB t h, s, err).

(** One iteration of the loop over [qb.Conditions]. *)
Definition build_condition (db : Stmt) (cond : QueryCondition.t) : Outcome Stmt :=
  let op := QueryCondition.Operator cond in
  let field := QueryCondition.Field cond in
  let value := QueryCondition.Value cond in
  if existsb (String.eqb op) ["="; "!="; ">"; "<"; ">="; "<="] then
    Done (Where db (Compare field op value))
  else if String.eqb op "LIKE" then
    match value with
    | VStr s => Done (Where db (Like field ("%" ++ s ++ "%")%string))
    | _ => Panic                    (* cond.Value.(string) *)
    end
  else if String.eqb op "IN" then Done (Where db (In_ field value))
  else if String.eqb op "NOT IN" then Done (Where db (NotIn field value))
  else if String.eqb op "BETWEEN" then
    match value with
    | VSeq [lo; hi] => Done (Where db (Between field lo hi))
    | _ => Done db
    end
  else Done db.

Fixpoint build_conditions (db : Stmt) (conds : list QueryCondition.t) : Outcome Stmt :=
  match conds with
  | [] => Done db
  | cond :: rest =>
      match build_condition db cond with
      | Done db => build_conditions db rest
      | Panic => Panic
      end
  end.

Definition BuildQuery (db : Stmt) (qb : option QueryBuilder) : Outcome Stmt :=
  match qb with
  | None => Done db
  | Some qb =>
      match build_conditions db (Conditions qb) with
      | Panic => Panic
      | Done db =>
          let db := foldl (fun db sort =>
                             Order db (SortCondition.Field sort) (SortCondition.Direction sort))
                          db (Sorts qb) in
          let db := foldl Preload db (Preloads qb) in
          Done db
      end
  end.

(** The paging parameters, as [GetByQueryBuilder] reads them. *)
Definition page_of {B} (c : Context B) : Z :=
  let pageStr := DefaultQuery c "page" "1" in
  let page := fst (strconv.Atoi pageStr) in
  if page <? 1 then 1 else page.

Definition pageSize_of {B} (c : Context B) : Z :=
  let pageSizeStr := DefaultQuery c "pagesize" "10" in
  let pageSize := fst (strconv.Atoi pageSizeStr) in
  if pageSize <? 1 then 10 else pageSize.

Definition offset_of {B} (c : Context B) : Z :=
  GoInt.mul (GoInt.sub (page_of c) 1) (pageSize_of c).

Definition failed_query : Reply :=
  respond StatusInternalServerError "查询失败" NoData.

Definition GetByQueryBuilder {B} (t : CRUDTool) (c : Context B) (qb : option QueryBuilder)
  : Outcome (CRUDTool * Reply * option error) :=
  let page := page_of c in
  let pageSize := pageSize_of c in
  match BuildQuery session qb with
  | Panic => Panic
  | Done db =>
      match finisher.Count (DB t) db with
      | (h, inl err) => Done (with_DB t h, failed_query, Some err)
      | (h, inr total) =>
          let offset := offset_of c in
          match finisher.Find h (Offset (Limit db pageSize) offset) with
          | (h, inl err) => Done (with_DB t h, failed_query, Some err)
          | (h, inr models) =>
              Done (with_DB t h,
                    {| Status := StatusOK;
                       Written := Envelope
                         {| Code := StatusOK; Message := "查询成功";
                            Data := ManyUsers models;
                            Page := Some {| Pagination.Page := page;
                                            Pagination.PageSize := pageSize;
                                            Pagination.Total := total |} |} |},
                    None)
          end
      end
  end.

Definition not_found_or (message : string) (err : error) : Reply :=
  if decide (err = ErrRecordNotFound)
  then respond StatusNotFound "记录不存在" NoData
  else respond StatusInternalServerError message NoData.

Definition invalid_id : Reply := respond StatusBadRequest "无效的ID" NoData.

(** [GetByID] with no preloads, on a fresh [models.User]. *)
Definition GetByID {B} (t : CRUDTool) (c : Context B) : CRUDTool * Reply * option error :=
  match strconv.Atoi (Param c "id") with
  | (_, Some err) => (t, invalid_id, Some err)
  | (id, None) =>
      let cacheKey := GenerateCacheKey id in
      match GetFromCache t cacheKey zero_User with
      | (true, model) =>
          (t, respond StatusOK "查询成功（缓存）" (OneUser model), None)
      | (false, _) =>
          match gorm.First (DB t) id with
          | (h, inl err) => (with_DB t h, not_found_or "查询失败" err, Some err)
          | (h, inr model) =>
              let '(t, _) := SetToCache (with_DB t h) cacheKey model in
              (t, respond StatusOK "查询成功" (OneUser model), None)
          end
      end
  end.

Definition UpdateByID (t : CRUDTool) (c : Context UserJSON)
  : CRUDTool * Reply * option error :=
  match strconv.Atoi (Param c "id") with
  | (_, Some err) => (t, invalid_id, Some err)
  | (id, None) =>
      (* load the record first *)
      match gorm.First (DB t) id with
      | (h, inl err) => (with_DB t h, not_found_or "查询失败" err, Some err)
      | (h, inr model) =>
          match ShouldBindJSON c with
          | inl err => (with_DB t h, respond StatusBadRequest "参数错误" NoData, Some err)
          | inr body =>
              let model := unmarshal body model in
              match gorm.Save h model with
              | (h, Some err, _) =>
                  (with_DB t h, respond StatusInternalServerError "更新失败" NoData, Some err)
              | (h, None, model) =>
                  (* drop the cache entry *)
                  let cacheKey := GenerateCacheKey id in
                  let '(t, _) := DeleteFromCache (with_DB t h) cacheKey in
                  (t, respond StatusOK "更新成功" (OneUser model), None)
              end
          end
      end
  end.

Definition SoftDeleteByID {B} (t : CRUDTool) (c : Context B)
  : CRUDTool * Reply * option error :=
  match strconv.Atoi (Param c "id") with
  | (_, Some err) => (t, invalid_id, Some err)
  | (id, None) =>
      let '(h, result) := gorm.Delete (DB t) id in
      match Error result with
      | Some err =>
          (with_DB t h, respond StatusInternalServerError "删除失败" NoData, Some err)
      | None =>
          if RowsAffected result =? 0 then
            (with_DB t h, respond StatusNotFound "记录不存在" NoData, Some ErrRecordNotFound)
          else
            let cacheKey := GenerateCacheKey id in
            let '(t, _) := DeleteFromCache (with_DB t h) cacheKey in
            (t, respond StatusOK "删除成功" NoData, None)
      end
  end.

Definition HardDeleteByID {B} (t : CRUDTool) (c : Context B)
  : CRUDTool * Reply * option error :=
  match strconv.Atoi (Param c "id") with
  | (_, Some err) => (t, invalid_id, Some err)
  | (id, None) =>
      let '(h, result) := gorm.UnscopedDelete (DB t) [id] in
      match Error result with
      | Some err =>
          (with_DB t h, respond StatusInternalServerError "删除失败" NoData, Some err)
      | None =>
          if RowsAffected result =? 0 then
            (with_DB t h, respond StatusNotFound "记录不存在" NoData, Some ErrRecordNotFound)
          else
            let cacheKey := GenerateCacheKey id in
            let '(t, _) := DeleteFromCache (with_DB t h) cacheKey in
            (t, respond StatusOK "永久删除成功" NoData, None)
      end
  end.

Definition RestoreSoftDelete {B} (t : CRUDTool) (c : Context B)
  : CRUDTool * Reply * option error :=
  match strconv.Atoi (Param c "id") with
  | (_, Some err) => (t, invalid_id, Some err)
  | (id, None) =>
      let '(h, result) := gorm.UnscopedRestore (DB t) id in
      match Error result with
      | Some err =>
          (with_DB t h, respond StatusInternalServerError "恢复失败" NoData, Some err)
      | None =>
          if RowsAffected result =? 0 then
            (with_DB t h, respond StatusNotFound "记录不存在" NoData, Some ErrRecordNotFound)
          else
            (with_DB t h, respond StatusOK "恢复成功" NoData, None)
      end
  end.

End gormtool.

(** ** Package main (main.go): the routes built on the tool *)

Record payload := {
  payload_User : User;              (* the embedded models.User *)
  payload_Profile : Profile;        (* "profile" *)
  payload_Tags : list Tag           (* "tags" *)
}.

Module main.

Definition set_UserID (p : Profile) (uid : Z) : Profile :=
  {| Profile_ID := Profile_ID p; Profile_UserID := uid; Avatar := Avatar p; Bio := Bio p |}.

(** The closure handed to [WithTransaction] by [createUserWithEverything];
    [req] is the variable it captures. *)
Definition create_everything (tx : gormDB) (req : payload)
  : gormDB * payload * option error :=
  (* 1. user *)
  match gorm.CreateUser tx (payload_User req) with
  | (tx, Some err, u) =>
      (tx, {| payload_User := u; payload_Profile := payload_Profile req;
              payload_Tags := payload_Tags req |}, Some err)
  | (tx, None, u) =>
      (* 2. profile *)
      let profile := set_UserID (payload_Profile req) (ID u) in
      match gorm.CreateProfile tx profile with
      | (tx, Some err, p) =>
          (tx, {| payload_User := u; payload_Profile := p;
                  payload_Tags := payload_Tags req |}, Some err)
      | (tx, None, p) =>
          (* 3. tags *)
          let '(tx, err, u) := gorm.AppendTags tx u (payload_Tags req) in
          (tx, {| payload_User := u; payload_Profile := p;
                  payload_Tags := payload_Tags req |}, err)
      end
  end.

Definition createUserWithEverything (cruder : CRUDTool) (c : Context payload)
  : CRUDTool * Reply :=
  match ShouldBindJSON c with
  | inl err => (cruder, {| Status := StatusBadRequest; Written := H_msg err |})
  | inr req =>
      let '(cruder, req, err) := gormtool.WithTransaction cruder req create_everything in
      match err with
      | Some err => (cruder, {| Status := StatusInternalServerError; Written := H_msg err |})
      | None => (cruder, {| Status := StatusCreated; Written := H_data (payload_User req) |})
      end
  end.

Definition getAllUsers {B} (cruder : CRUDTool) (c : Context B)
  : Outcome (CRUDTool * Reply * option error) :=
  gormtool.GetByQueryBuilder cruder c
    (Some {| Conditions := []; Sorts := []; Preloads := [] |}).

Definition softDeleteUser {B} (cruder : CRUDTool) (c : Context B) : CRUDTool * Reply :=
  fst (gormtool.SoftDeleteByID cruder c).

Definition restoreUser {B} (cruder : CRUDTool) (c : Context B) : CRUDTool * Reply :=
  fst (gormtool.RestoreSoftDelete cruder c).

(** The body of [batchHardDelete] is [{"ids": [...]}], a list of uint. *)
Definition batchHardDelete (cruder : CRUDTool) (c : Context (list Z)) : CRUDTool * Reply :=
  match ShouldBindJSON c with
  | inl err => (cruder, {| Status := StatusBadRequest; Written := H_msg err |})
  | inr ids =>
      let '(cruder, _, err) :=
        gormtool.WithTransaction cruder tt
          (fun tx s => let '(tx, r) := gorm.UnscopedDelete tx ids in (tx, s, Error r)) in
      match err with
      | Some err => (cruder, {| Status := StatusInternalServerError; Written := H_msg err |})
      | None => (cruder, {| Status := StatusOK;
                            Written := H_affected (Z.of_nat (length ids)) |})
      end
  end.

End main.

(** ** Observations used in the statements below *)

(** The rows and the paging block of an envelope. *)
Definition reply_rows (r : Reply) : list User :=
  match Written r with
  | Envelope {| Data := ManyUsers us |} => us
  | _ => []
  end.

Definition reply_page (r : Reply) : option Pagination.t :=
  match Written r with
  | Envelope e => Page e
  | _ => None
  end.

(** The rows the pager is expected to send for a built statement: the
    matching rows in order, [offset] skipped, at most [pageSize] kept. *)
Definition page_window (db : Stmt) (s : Store) (pageSize offset : Z) : list User :=
  take (Z.to_nat pageSize)
       (drop (Z.to_nat offset) (sqlstore.order_by (orders db) (sqlstore.matching db s))).

(** A statement the store accepts. *)
Definition accepted (db : Stmt) : Prop :=
  forallb sqlstore.valid_predicate (wheres db) = true
  /\ forallb sqlstore.valid_order (orders db) = true
  /\ forallb (fun r => String.eqb r "Tags") (preloads db) = true.


(** No active record has key [id]: the record is soft-deleted or absent. *)
Definition deleted_or_absent (s : Store) (id : Z) : Prop :=
  forall u, u ∈ users s -> ID u = id -> DeletedAt u <> None.

(** The driver answers the next statement without an error. *)
Definition next_ok (h : gormDB) : Prop := fst (gorm.roundtrip h) = false.

(** A condition that makes the LIKE branch of [BuildQuery] fail its type
    assertion. *)
Definition is_string (v : Any) : bool :=
  match v with VStr _ => true | _ => false end.

Definition bad_like (cond : QueryCondition.t) : bool :=
  String.eqb (QueryCondition.Operator cond) "LIKE"
  && negb (is_string (QueryCondition.Value cond)).


(** In [createUserWithEverything], inside the transaction and after the
    user [u] has been created on [tx1]: the profile step or the tags step
    returns the error [e]. *)
Definition later_step_fails (tx1 : gormDB) (u : User) (req : payload) (e : error) : Prop :=
  let profile := main.set_UserID (payload_Profile req) (ID u) in
  (exists tx2 p, gorm.CreateProfile tx1 profile = (tx2, Some e, p))
  \/ (exists tx2 p tx3 u',
        gorm.CreateProfile tx1 profile = (tx2, None, p)
        /\ gorm.AppendTags tx2 u (payload_Tags req) = (tx3, Some e, u')).

(** The cache entry kept for the record with key [id]. *)
Definition cached (t : CRUDTool) (id : Z) : option blob :=
  match RedisClient t with
  | Some rdb => entries rdb !! gormtool.GenerateCacheKey id
  | None => None
  end.


(** The tool has a cache client that answers. *)
Definition cache_up (t : CRUDTool) : Prop :=
  exists rdb, RedisClient t = Some rdb /\ alive rdb = true.

(** Concrete requests and stores used to run the handlers. *)
Module sample.

Definition alice : User :=
  {| ID := 1; DeletedAt := None; Name := "Alice"; Age := 30; Tags := [] |}.
Definition bob : User :=
  {| ID := 3; DeletedAt := None; Name := "Bob"; Age := 41; Tags := [] |}.
(** Record 1 after a soft delete at instant 50. *)
Definition alice_deleted : User :=
  {| ID := 1; DeletedAt := Some 50; Name := "Alice"; Age := 30; Tags := [] |}.
(** A copy of record 1 kept by the cache. *)
Definition alice_cached : User :=
  {| ID := 1; DeletedAt := None; Name := "Alice (cached)"; Age := 29; Tags := [] |}.

Definition store (us : list User) : Store :=
  {| users := us; profiles := []; tags := []; user_tags := [] |}.

Definition handle (us : list User) : gormDB :=
  {| data := store us; driver := []; now := 100 |}.

(** Main.go's tool: no cache client. *)
Definition tool (us : list User) : CRUDTool :=
  {| DB := handle us; RedisClient := None |}.

(** A tool whose cache holds an entry for record 1. *)
Definition cached_tool (us : list User) : CRUDTool :=
  {| DB := handle us;
     RedisClient := Some {| entries := {[ gormtool.GenerateCacheKey 1 := Encoded alice_cached ]};
                            alive := true |} |}.

Definition by_id {B} (id : string) (body : option B) : Context B :=
  {| Params := [("id", id)]; QueryArgs := []; Body := body |}.

Definition listing (args : list (string * string)) : Context unit :=
  {| Params := []; QueryArgs := args; Body := None |}.

(** GET /users?page=2&pagesize=1 with a filter on age. *)
Definition second_page : Context unit := listing [("page", "2"); ("pagesize", "1")].
Definition first_page : Context unit := listing [].

Definition adults : option QueryBuilder :=
  Some {| Conditions := [ {| QueryCondition.Field := "age";
                             QueryCondition.Operator := ">=";
                             QueryCondition.Value := VInt 18 |} ];
          Sorts := [ {| SortCondition.Field := "name"; SortCondition.Direction := "DESC" |} ];
          Preloads := ["Tags"] |}.

Definition adults_stmt : Stmt :=
  match gormtool.BuildQuery session adults with
  | Done db => db
  | Panic => session
  end.

(** PUT /users/1 with {"Name":"Alicia"}. *)
Definition rename : Context UserJSON :=
  by_id "1" (Some {| json_ID := None; json_DeletedAt := None;
                     json_Name := Some "Alicia"; json_Age := None; json_Tags := None |}).

(** POST /users for Carol.  The profile comes with the key 7, which the
    store already uses; the tag is new. *)
Definition carol : payload :=
  {| payload_User := {| ID := 0; DeletedAt := None; Name := "Carol"; Age := 25; Tags := [] |};
     payload_Profile := {| Profile_ID := 7; Profile_UserID := 0; Avatar := EmptyString; Bio := "x" |};
     payload_Tags := [ {| Tag_ID := 0; Tag_Name := "vip" |} ] |}.

(** The same request with a profile that asks for a fresh key. *)
Definition carol_fresh : payload :=
  {| payload_User := payload_User carol;
     payload_Profile := {| Profile_ID := 0; Profile_UserID := 0; Avatar := EmptyString; Bio := "x" |};
     payload_Tags := payload_Tags carol |}.

Definition create (req : payload) : Context payload :=
  {| Params := []; QueryArgs := []; Body := Some req |}.

(** A store with the user 1 and a profile under the key 7, behind a
    driver that follows the given script. *)
Definition profiled_tool (script : list bool) : CRUDTool :=
  {| DB := {| data := {| users := [alice];
                         profiles := [ {| Profile_ID := 7; Profile_UserID := 1;
                                          Avatar := EmptyString; Bio := EmptyString |} ];
                         tags := []; user_tags := [] |};
              driver := script; now := 100 |};
     RedisClient := None |}.

(** DELETE /users/batch/hard with {"ids":[1,2,3]}. *)
Definition batch : Context (list Z) :=
  {| Params := []; QueryArgs := []; Body := Some [1; 2; 3] |}.

End sample.

(** ** Further functions of crud.go and main.go *)

(** One more call into the ORM. *)
Module orm.

(** [db.Unscoped().Preload(...).First(&user, id)]: the row with that key,
    whatever its deletion marker, then the preloads. *)
Definition UnscopedFirst (db : gormDB) (relations : list string) (id : Z)
  : gormDB * (error + User) :=
  let '(bad, db) := gorm.roundtrip db in
  if bad then (db, inl ErrDriver)
  else match gorm.find_unscoped (data db) id with
       | None => (db, inl ErrRecordNotFound)
       | Some u =>
           match finisher.preload db relations [gorm.row u] with
           | (db, inl err) => (db, inl err)
           | (db, inr rows) => (db, inr (default (gorm.row u) (head rows)))
           end
       end.

End orm.

(** [strings.Split(info, "\r\n")], [strings.SplitN(line, ":", 2)] and
    [strings.HasPrefix(line, "#")], the three calls of [getRedisStats]. *)
Module gostrings.

Definition CR : ascii := ascii_of_nat 13.
Definition LF : ascii := ascii_of_nat 10.

(** Puts a character in front of the first piece. *)
Definition push (c : ascii) (pieces : list string) : list string :=
  match pieces with
  | p :: ps => String c p :: ps
  | [] => [String c EmptyString]
  end.

(** The pieces between the occurrences of CR LF, found from the left. *)
Fixpoint SplitCRLF (s : string) : list string :=
  match s with
  | EmptyString => [EmptyString]
  | String c s' =>
      match s' with
      | String d rest =>
          if Ascii.eqb c CR && Ascii.eqb d LF then EmptyString :: SplitCRLF rest
          else push c (SplitCRLF s')
      | EmptyString => [String c EmptyString]
      end
  end.

(** The text before and after the first colon, if there is one. *)
Fixpoint CutColon (s : string) : option (string * string) :=
  match s with
  | EmptyString => None
  | String c s' =>
      if Ascii.eqb c ":" then Some (EmptyString, s')
      else match CutColon s' with
           | Some (k, v) => Some (String c k, v)
           | None => None
           end
  end.

Definition HasPrefixHash (s : string) : bool :=
  match s with
  | String c _ => Ascii.eqb c "#"
  | EmptyString => false
  end.

End gostrings.

(** What [getRedisStats] returns: a text or the parsed fields. *)
Inductive RedisStats : Type :=
| StatsNotConfigured                   (* "Redis 未配置" *)
| StatsUnavailable (e : error)         (* "无法获取 Redis 信息: " + err.Error() *)
| StatsFields (m : gmap string string).

Module crud.

(** [GetByIDWithSoftDelete]: the read that includes deleted records. *)
Definition GetByIDWithSoftDelete {B} (t : CRUDTool) (c : Context B) (preloads : list string)
  : CRUDTool * Reply * option error :=
  match strconv.Atoi (Param c "id") with
  | (_, Some err) => (t, gormtool.invalid_id, Some err)
  | (id, None) =>
      match orm.UnscopedFirst (DB t) preloads id with
      | (h, inl err) => (with_DB t h, gormtool.not_found_or "查询失败" err, Some err)
      | (h, inr model) =>
          (with_DB t h, respond StatusOK "查询成功" (OneUser model), None)
      end
  end.

(** [Create], on a fresh [models.User]. *)
Definition Create (t : CRUDTool) (c : Context UserJSON) : CRUDTool * Reply * option error :=
  match ShouldBindJSON c with
  | inl err => (t, respond StatusBadRequest "参数错误" NoData, Some err)
  | inr body =>
      let model := unmarshal body zero_User in
      match gorm.CreateUser (DB t) model with
      | (h, Some err, _) =>
          (with_DB t h, respond StatusInternalServerError "创建失败" NoData, Some err)
      | (h, None, model) =>
          (with_DB t h, respond StatusCreated "创建成功" (OneUser model), None)
      end
  end.

(** [Transaction]: the wrapper that answers for the closure. *)
Definition Transaction {S : Type} (t : CRUDTool) (s : S)
    (fn : gormDB -> S -> gormDB * S * option error) : CRUDTool * S * Reply :=
  let '(t, s, err) := gormtool.WithTransaction t s fn in
  match err with
  | Some _ => (t, s, respond StatusInternalServerError "事务执行失败" NoData)
  | None => (t, s, respond StatusOK "操作成功" NoData)
  end.

(** One iteration of the loop over the lines of the INFO reply. *)
Definition add_line (redisStats : gmap string string) (line : string) : gmap string string :=
  if gostrings.HasPrefixHash line || String.eqb line EmptyString then redisStats
  else match gostrings.CutColon line with
       | Some (k, v) => <[k := v]> redisStats
       | None => redisStats
       end.

Definition parse_info (info : string) : gmap string string :=
  foldl add_line ∅ (gostrings.SplitCRLF info).

(** [getRedisStats]; [info] is the text the server answers INFO with. *)
Definition getRedisStats (t : CRUDTool) (info : string) : RedisStats :=
  match RedisClient t with
  | None => StatsNotConfigured
  | Some rdb =>
      if negb (alive rdb) then StatsUnavailable ErrDriver
      else StatsFields (parse_info info)
  end.

End crud.

Module routes.

(** [getUserByID]: [GetByID] has already answered; the error is only logged. *)
Definition getUserByID {B} (cruder : CRUDTool) (c : Context B) : CRUDTool * Reply :=
  fst (gormtool.GetByID cruder c).

End routes.

(** ** The log stream ([LogOperation] and the deferred calls)

    The handlers above are written without their log entries; this part
    adds them.  The logger is a sink of entries.  [fields] holds what
    [LogOperation] puts in the map it hands to the logger;
    [additionalFields] is nil at every call below. *)
Module logging.

Inductive Level : Type := DEBUG | INFO | WARN | ERROR.

Record Fields := {
  log_operation : string;
  log_duration : Z;                (* time.Since(start) *)
  log_model : string;              (* fmt.Sprintf("%T", model) *)
  log_error : option error         (* set when err != nil *)
}.

Record Entry := { level : Level; msg : string; fields : Fields }.

Definition LogOperation (EnableLog : bool) (operation model : string) (duration : Z)
    (err : option error) : list Entry :=
  if negb EnableLog then []
  else
    let fields := {| log_operation := operation; log_duration := duration;
                     log_model := model; log_error := err |} in
    match err with
    | Some _ => [ {| level := ERROR; msg := "操作失败"; fields := fields |} ]
    | None => [ {| level := INFO; msg := "操作成功"; fields := fields |} ]
    end.

End logging.

(** The handlers together with what they write to the log.  Each handler
    declares [var err error] and defers a closure that hands that variable
    to [LogOperation] when the handler returns.  [id, err :=
    strconv.Atoi(...)] assigns it.  The statements [if err := ...; err !=
    nil] that follow declare an [err] of their own, and a [return] with a
    value does not assign it either, the result being unnamed.  [elapsed]
    is the time the call took. *)
Module deferred.

Definition traced (A : Type) : Type := A * list logging.Entry.

(** The value of the handler's [err] after the id has been parsed. *)
Definition by_id {B} (c : Context B) : option error :=
  snd (strconv.Atoi (Param c "id")).

Definition GetByID {B} (EnableLog : bool) (elapsed : Z) (t : CRUDTool) (c : Context B)
  : traced (CRUDTool * Reply * option error) :=
  (gormtool.GetByID t c,
   logging.LogOperation EnableLog "get_by_id" "*models.User" elapsed (by_id c)).

Definition GetByIDWithSoftDelete {B} (EnableLog : bool) (elapsed : Z) (t : CRUDTool)
    (c : Context B) (preloads : list string) : traced (CRUDTool * Reply * option error) :=
  (crud.GetByIDWithSoftDelete t c preloads,
   logging.LogOperation EnableLog "get_by_id_soft_delete" "*models.User" elapsed (by_id c)).

Definition UpdateByID (EnableLog : bool) (elapsed : Z) (t : CRUDTool) (c : Context UserJSON)
  : traced (CRUDTool * Reply * option error) :=
  (gormtool.UpdateByID t c,
   logging.LogOperation EnableLog "update_by_id" "*models.User" elapsed (by_id c)).

Definition SoftDeleteByID {B} (EnableLog : bool) (elapsed : Z) (t : CRUDTool) (c : Context B)
  : traced (CRUDTool * Reply * option error) :=
  (gormtool.SoftDeleteByID t c,
   logging.LogOperation EnableLog "soft_delete" "*models.User" elapsed (by_id c)).

Definition HardDeleteByID {B} (EnableLog : bool) (elapsed : Z) (t : CRUDTool) (c : Context B)
  : traced (CRUDTool * Reply * option error) :=
  (gormtool.HardDeleteByID t c,
   logging.LogOperation EnableLog "hard_delete" "*models.User" elapsed (by_id c)).

Definition RestoreSoftDelete {B} (EnableLog : bool) (elapsed : Z) (t : CRUDTool)
    (c : Context B) : traced (CRUDTool * Reply * option error) :=
  (gormtool.RestoreSoftDelete t c,
   logging.LogOperation EnableLog "restore" "*models.User" elapsed (by_id c)).

(** [Create] and [GetByQueryBuilder] never assign the variable.  The
    deferred call also runs when [BuildQuery] panics. *)
Definition Create (EnableLog : bool) (elapsed : Z) (t : CRUDTool) (c : Context UserJSON)
  : traced (CRUDTool * Reply * option error) :=
  (crud.Create t c, logging.LogOperation EnableLog "create" "*models.User" elapsed None).

Definition GetByQueryBuilder {B} (EnableLog : bool) (elapsed : Z) (t : CRUDTool)
    (c : Context B) (qb : option QueryBuilder)
  : traced (Outcome (CRUDTool * Reply * option error)) :=
  (gormtool.GetByQueryBuilder t c qb,
   logging.LogOperation EnableLog "get_by_query_builder" "*[]models.User" elapsed None).

(** [Transaction] assigns it: [err = t.WithTransaction(...)].  The model
    handed to [LogOperation] is nil. *)
Definition Transaction {S : Type} (EnableLog : bool) (elapsed : Z) (t : CRUDTool) (s : S)
    (fn : gormDB -> S -> gormDB * S * option error) : traced (CRUDTool * S * Reply) :=
  let err := snd (gormtool.WithTransaction t s fn) in
  (crud.Transaction t s fn,
   logging.LogOperation EnableLog "transaction" "<nil>" elapsed err).

End deferred.

(** The entry of a call that went well. *)
Definition success_entry (operation model : string) (elapsed : Z) : logging.Entry :=
  {| logging.level := logging.INFO; logging.msg := "操作成功";
     logging.fields := {| logging.log_operation := operation;
                          logging.log_duration := elapsed;
                          logging.log_model := model;
                          logging.log_error := None |} |}.


(** ** Further observations *)

(** The lines of an INFO reply as the server writes them. *)
Inductive InfoLine : Type :=
| Heading (title : string)          (* "# Server" *)
| Blank
| Field (key value : string).       (* "redis_version:7.2.4" *)

Definition render (l : InfoLine) : string :=
  match l with
  | Heading title => String "#" title
  | Blank => EmptyString
  | Field k v => (k ++ String ":" v)%string
  end.

Fixpoint join_crlf (lines : list string) : string :=
  match lines with
  | [] => EmptyString
  | [l] => l
  | l :: rest => (l ++ String gostrings.CR (String gostrings.LF (join_crlf rest)))%string
  end.

Fixpoint has_char (c : ascii) (s : string) : bool :=
  match s with
  | EmptyString => false
  | String d s' => Ascii.eqb d c || has_char c s'
  end.

(** A line the server can write: no line feed inside, and a field's key
    has no colon and does not start a heading. *)
Definition well_formed (l : InfoLine) : Prop :=
  match l with
  | Heading title => has_char gostrings.LF title = false
  | Blank => True
  | Field k v =>
      has_char gostrings.LF k = false /\ has_char gostrings.LF v = false
      /\ has_char ":" k = false /\ gostrings.HasPrefixHash k = false
  end.

(** The fields of a reply, a later line replacing an earlier one with the
    same key. *)
Definition fields_of (lines : list InfoLine) : gmap string string :=
  foldl (fun m l => match l with Field k v => <[k := v]> m | _ => m end) ∅ lines.

(** Requests and stores used to run the further functions. *)
Module fixtures.

Definition info_reply : list InfoLine :=
  [ Heading " Server"; Field "redis_version" "7.2.4"; Field "tcp_port" "6379"; Blank;
    Heading " Clients"; Field "connected_clients" "1"; Field "tcp_port" "6380" ].

Definition live_tool (us : list User) : CRUDTool :=
  {| DB := sample.handle us;
     RedisClient := Some {| entries := ∅; alive := true |} |}.

(** A tool whose driver reports an error for the next statement. *)
Definition failing_tool (us : list User) : CRUDTool :=
  {| DB := {| data := sample.store us; driver := [true]; now := 100 |};
     RedisClient := None |}.

Definition new_user : Context UserJSON :=
  {| Params := []; QueryArgs := [];
     Body := Some {| json_ID := None; json_DeletedAt := None;
                     json_Name := Some "Dora"; json_Age := Some 22; json_Tags := None |} |}.

Definition far_page : Context unit := sample.listing [("page", "5"); ("pagesize", "10")].

(** The builder of [sample.adults]. *)
Definition adults_qb : QueryBuilder :=
  {| Conditions := [ {| QueryCondition.Field := "age";
                        QueryCondition.Operator := ">=";
                        QueryCondition.Value := VInt 18 |} ];
     Sorts := [ {| SortCondition.Field := "name"; SortCondition.Direction := "DESC" |} ];
     Preloads := ["Tags"] |}.

(** DELETE /users/batch/hard with {"ids":[1]}. *)
Definition batch_of_one : Context (list Z) :=
  {| Params := []; QueryArgs := []; Body := Some [1] |}.

End fixtures.

(** * Properties *)

(** ** strconv and the paging parameters *)

Section Paging.

Lemma Atoi_in_range (s : string) :
  GoInt.MinInt <= fst (strconv.Atoi s) <= GoInt.MaxInt.
Proof.
  unfold strconv.Atoi. destruct (strconv.sign s) as [neg body].
  assert (Hz : GoInt.MinInt <= 0 <= GoInt.MaxInt) by (unfold GoInt.MinInt, GoInt.MaxInt; lia).
  destruct body as [|c r]; [exact Hz|].
  destruct (strconv.digits (String c r) 0) as [n|]; [|exact Hz].
  set (v := if neg then - n else n).
  destruct (GoInt.MaxInt <? v) eqn:Hhi; simpl.
  - unfold GoInt.MinInt, GoInt.MaxInt; lia.
  - destruct (v <? GoInt.MinInt) eqn:Hlo; simpl.
    + unfold GoInt.MinInt, GoInt.MaxInt; lia.
    + apply Z.ltb_ge in Hhi, Hlo. lia.
Qed.


Lemma wrap_id (z : Z) : GoInt.MinInt <= z <= GoInt.MaxInt -> GoInt.wrap z = z.
Proof.
  unfold GoInt.wrap, GoInt.MinInt, GoInt.MaxInt. intros H.
  rewrite Z.mod_small; lia.
Qed.

Context {B : Type} (c : Context B).

Lemma page_of_bounds : 1 <= gormtool.page_of c <= GoInt.MaxInt.
Proof.
  unfold gormtool.page_of.
  pose proof (Atoi_in_range (DefaultQuery c "page" "1")) as H.
  destruct (_ <? 1) eqn:E.
  - unfold GoInt.MaxInt; lia.
  - apply Z.ltb_ge in E. lia.
Qed.

Lemma pageSize_of_bounds : 1 <= gormtool.pageSize_of c <= GoInt.MaxInt.
Proof.
  unfold gormtool.pageSize_of.
  pose proof (Atoi_in_range (DefaultQuery c "pagesize" "10")) as H.
  destruct (_ <? 1) eqn:E.
  - unfold GoInt.MaxInt; lia.
  - apply Z.ltb_ge in E. lia.
Qed.

Lemma offset_of_wrap :
  gormtool.offset_of c = GoInt.wrap ((gormtool.page_of c - 1) * gormtool.pageSize_of c).
Proof.
  unfold gormtool.offset_of, GoInt.mul, GoInt.sub.
  rewrite (wrap_id (gormtool.page_of c - 1)); [reflexivity|].
  pose proof page_of_bounds. unfold GoInt.MinInt, GoInt.MaxInt in *. lia.
Qed.

Lemma offset_of_exact :
  gormtool.page_of c * gormtool.pageSize_of c <= GoInt.MaxInt ->
  gormtool.offset_of c = (gormtool.page_of c - 1) * gormtool.pageSize_of c.
Proof.
  intros H. rewrite offset_of_wrap. apply wrap_id.
  pose proof page_of_bounds. pose proof pageSize_of_bounds.
  unfold GoInt.MinInt, GoInt.MaxInt in *. nia.
Qed.

End Paging.

(** ** The store's finishers leave the data alone *)

Lemma roundtrip_data (h : gormDB) : data (snd (gorm.roundtrip h)) = data h.
Proof. unfold gorm.roundtrip. destruct (driver h); reflexivity. Qed.

Lemma roundtrip_nil (h : gormDB) : driver h = [] -> gorm.roundtrip h = (false, h).
Proof. unfold gorm.roundtrip. intros ->. reflexivity. Qed.

Lemma Count_inv (h h' : gormDB) (db : Stmt) (n : Z) :
  finisher.Count h db = (h', inr n) ->
  n = Z.of_nat (length (sqlstore.matching db (data h))) /\ data h' = data h.
Proof.
  unfold finisher.Count. pose proof (roundtrip_data h) as Hd.
  destruct (gorm.roundtrip h) as [bad h1]; simpl in Hd.
  destruct bad; [discriminate|].
  destruct (negb _); [discriminate|].
  intros [= <- <-]. rewrite Hd. auto.
Qed.

Lemma preload_inv (rels : list string) :
  forall (h h' : gormDB) (rows rows' : list User),
    finisher.preload h rels rows = (h', inr rows') ->
    length rows' = length rows /\ data h' = data h.
Proof.
  induction rels as [|r rels IH]; intros h h' rows rows'; simpl.
  - intros [= <- <-]. auto.
  - destruct (String.eqb r "Tags"); [|discriminate].
    pose proof (roundtrip_data h) as Hd.
    destruct (gorm.roundtrip h) as [bad h1]; simpl in Hd.
    destruct bad; [discriminate|].
    intros H. apply IH in H as [Hl Hdata].
    rewrite Hl, length_map, Hdata. auto.
Qed.

Lemma window_paged (db : Stmt) (n o : Z) (rows : list User) :
  1 <= n ->
  sqlstore.window (Offset (Limit db n) o) rows = take (Z.to_nat n) (drop (Z.to_nat o) rows).
Proof.
  intros Hn. unfold sqlstore.window; simpl.
  destruct (0 <=? n) eqn:E; [|apply Z.leb_gt in E; lia].
  destruct (0 <? o) eqn:Eo; [reflexivity|].
  apply Z.ltb_ge in Eo. replace (Z.to_nat o) with 0%nat by lia. reflexivity.
Qed.

Lemma Find_inv (h h' : gormDB) (db : Stmt) (n o : Z) (rows : list User) :
  1 <= n ->
  finisher.Find h (Offset (Limit db n) o) = (h', inr rows) ->
  exists h1, data h1 = data h
    /\ finisher.preload h1 (preloads db) (page_window db (data h) n o) = (h', inr rows).
Proof.
  intros Hn. unfold finisher.Find. pose proof (roundtrip_data h) as Hd.
  destruct (gorm.roundtrip h) as [bad h1]; simpl in Hd.
  destruct bad; [discriminate|].
  destruct (negb _); [discriminate|].
  rewrite window_paged by exact Hn. simpl. rewrite Hd.
  intros H. exists h1. split; [exact Hd|exact H].
Qed.

(** What a successful answer of the pager consists of. *)
Lemma GetByQueryBuilder_inv {B} (t t' : CRUDTool) (c : Context B)
    (qb : option QueryBuilder) (r : Reply) :
  gormtool.GetByQueryBuilder t c qb = Done (t', r, None) ->
  exists db h1 rows,
    gormtool.BuildQuery session qb = Done db
    /\ data h1 = data (DB t)
    /\ finisher.preload h1 (preloads db)
         (page_window db (data (DB t)) (gormtool.pageSize_of c) (gormtool.offset_of c))
       = (DB t', inr rows)
    /\ r = {| Status := StatusOK;
              Written := Envelope
                {| Code := StatusOK; Message := "查询成功"; Data := ManyUsers rows;
                   Page := Some {| Pagination.Page := gormtool.page_of c;
                                   Pagination.PageSize := gormtool.pageSize_of c;
                                   Pagination.Total :=
                                     Z.of_nat (length (sqlstore.matching db (data (DB t)))) |} |} |}.
Proof.
  unfold gormtool.GetByQueryBuilder.
  destruct (gormtool.BuildQuery session qb) as [db|]; [|discriminate].
  destruct (finisher.Count (DB t) db) as [h [err|total]] eqn:HC; [discriminate|].
  apply Count_inv in HC as [-> Hdh].
  destruct (finisher.Find h _) as [h2 [err|rows]] eqn:HF; [discriminate|].
  apply Find_inv in HF as (h1 & Hd1 & HP); [|apply pageSize_of_bounds].
  intros [= <- <-]. exists db, h1, rows.
  rewrite Hdh in *. repeat split; auto.
Qed.

Lemma preload_total (rels : list string) :
  forall (h : gormDB) (rows : list User),
    driver h = [] ->
    forallb (fun r => String.eqb r "Tags") rels = true ->
    exists rows', finisher.preload h rels rows = (h, inr rows').
Proof.
  induction rels as [|r rels IH]; intros h rows Hd Hr.
  - simpl. eauto.
  - cbn [forallb] in Hr. apply andb_true_iff in Hr as [Hr Hrs].
    cbn [finisher.preload]. rewrite Hr, (roundtrip_nil h Hd).
    apply IH; assumption.
Qed.

Lemma GetByQueryBuilder_total {B} (t : CRUDTool) (c : Context B)
    (qb : option QueryBuilder) (db : Stmt) :
  gormtool.BuildQuery session qb = Done db ->
  accepted db ->
  driver (DB t) = [] ->
  exists t' r, gormtool.GetByQueryBuilder t c qb = Done (t', r, None).
Proof.
  intros HB (Hw & Ho & Hp) Hd.
  unfold gormtool.GetByQueryBuilder. rewrite HB.
  unfold finisher.Count. rewrite (roundtrip_nil _ Hd), Hw. simpl.
  unfold finisher.Find. rewrite (roundtrip_nil _ Hd). simpl. rewrite Hw, Ho. simpl.
  destruct (preload_total (preloads db) (DB t)
              (sqlstore.window (Offset (Limit db (gormtool.pageSize_of c)) (gormtool.offset_of c))
                 (sqlstore.order_by (orders db)
                    (sqlstore.matching
                       (Offset (Limit db (gormtool.pageSize_of c)) (gormtool.offset_of c))
                       (data (DB t))))) Hd Hp) as [rows' Hrows].
  rewrite Hrows. eauto.
Qed.


(** C5. Whatever page is asked for, a successful answer of the pager holds
    at most [pageSize] rows and reports as total the number of rows that
    match the built filter, a number in which the paging parameters play no
    part; and the pager does answer successfully when the store accepts the
    statement and the driver reports no error. *)
Theorem C5_pager_rows_and_total {B : Type} (t : CRUDTool) (c c' : Context B)
    (qb : option QueryBuilder) (db : Stmt) :
  gormtool.BuildQuery session qb = Done db ->
  1 <= gormtool.page_of c /\ 1 <= gormtool.pageSize_of c
  /\ (forall t1 r,
        gormtool.GetByQueryBuilder t c qb = Done (t1, r, None) ->
        Z.of_nat (length (reply_rows r)) <= gormtool.pageSize_of c
        /\ (Pagination.Total <$> reply_page r)
           = Some (Z.of_nat (length (sqlstore.matching db (data (DB t))))))
  /\ (forall t1 r1 t2 r2,
        gormtool.GetByQueryBuilder t c qb = Done (t1, r1, None) ->
        gormtool.GetByQueryBuilder t c' qb = Done (t2, r2, None) ->
        (Pagination.Total <$> reply_page r1) = (Pagination.Total <$> reply_page r2))
  /\ (accepted db -> driver (DB t) = [] ->
      exists t1 r, gormtool.GetByQueryBuilder t c qb = Done (t1, r, None)).
Proof.
  intros HB.
  assert (Hinv : forall (c0 : Context B) t1 r,
             gormtool.GetByQueryBuilder t c0 qb = Done (t1, r, None) ->
             Z.of_nat (length (reply_rows r)) <= gormtool.pageSize_of c0
             /\ (Pagination.Total <$> reply_page r)
                = Some (Z.of_nat (length (sqlstore.matching db (data (DB t)))))).
  { intros c0 t1 r H.
    apply GetByQueryBuilder_inv in H as (db0 & h1 & rows & HB0 & Hd & HP & ->).
    rewrite HB in HB0. injection HB0 as <-.
    apply preload_inv in HP as [Hl _]. split; [|reflexivity].
    unfold reply_rows; simpl. rewrite Hl. unfold page_window.
    rewrite length_take. pose proof (pageSize_of_bounds c0). lia. }
  split; [apply page_of_bounds|]. split; [apply pageSize_of_bounds|].
  split; [apply Hinv|]. split.
  - intros t1 r1 t2 r2 H1 H2.
    apply Hinv in H1 as [_ ->]. apply Hinv in H2 as [_ ->]. reflexivity.
  - intros Ha Hd. eapply GetByQueryBuilder_total; eauto.
Qed.

(** ** The query builder *)

Section Builder.

Local Ltac case_op op lit :=
  destruct (String.eqb_spec op lit) as [?|?]; [subst op|].







Lemma build_condition_panic (db : Stmt) (cond : QueryCondition.t) :
  gormtool.build_condition db cond = Panic <-> bad_like cond = true.
Proof.
  destruct cond as [field op value]. unfold bad_like, gormtool.build_condition.
  cbn [QueryCondition.Operator QueryCondition.Field QueryCondition.Value].
  case_op op "LIKE".
  - cbn. destruct value; cbn; split; congruence.
  - cbn [andb]. split; [|discriminate].
    destruct (existsb _ _); [discriminate|].
    destruct (String.eqb op "IN"); [discriminate|].
    destruct (String.eqb op "NOT IN"); [discriminate|].
    destruct (String.eqb op "BETWEEN"); [|discriminate].
    destruct value as [| | | |l]; try discriminate.
    destruct l as [|lo [|hi [|x l]]]; discriminate.
Qed.

Lemma build_conditions_panic (conds : list QueryCondition.t) :
  forall db, gormtool.build_conditions db conds = Panic <-> existsb bad_like conds = true.
Proof.
  induction conds as [|cond conds IH]; intros db; cbn [gormtool.build_conditions existsb].
  - split; discriminate.
  - destruct (gormtool.build_condition db cond) as [db'|] eqn:E.
    + assert (Hb : bad_like cond = false).
      { destruct (bad_like cond) eqn:Hb; [|reflexivity].
        apply (build_condition_panic db) in Hb. congruence. }
      rewrite Hb. cbn [orb]. apply IH.
    + apply build_condition_panic in E. rewrite E. cbn. tauto.
Qed.

End Builder.


(** C9. [BuildQuery] panics exactly when some condition has the operator
    LIKE and a value that is not a string (the type assertion in the LIKE
    branch is unchecked); it returns a query if and only if every LIKE
    condition carries a string.  The pager built on it panics on the same
    inputs. *)
Theorem C9_like_requires_string {B : Type} (db : Stmt) (qb : QueryBuilder)
    (t : CRUDTool) (c : Context B) :
  (gormtool.BuildQuery db (Some qb) = Panic <-> existsb bad_like (Conditions qb) = true)
  /\ ((exists db', gormtool.BuildQuery db (Some qb) = Done db')
      <-> forall cond, cond ∈ Conditions qb ->
            QueryCondition.Operator cond = "LIKE" ->
            exists s, QueryCondition.Value cond = VStr s)
  /\ (gormtool.GetByQueryBuilder t c (Some qb) = Panic
      <-> existsb bad_like (Conditions qb) = true).
Proof.
  assert (HP : forall db0, gormtool.BuildQuery db0 (Some qb) = Panic
                           <-> existsb bad_like (Conditions qb) = true).
  { intros db0. unfold gormtool.BuildQuery.
    rewrite <- (build_conditions_panic (Conditions qb) db0).
    destruct (gormtool.build_conditions db0 (Conditions qb)); split; congruence. }
  split; [apply HP|]. split.
  - split.
    + intros [db' Hd] cond Hin Hop.
      destruct (QueryCondition.Value cond) as [| | |s|l] eqn:Hv; eauto;
        exfalso;
        (assert (Hbad : existsb bad_like (Conditions qb) = true);
         [apply existsb_exists; exists cond; split;
          [apply list_elem_of_In; exact Hin
          |unfold bad_like; rewrite Hop, Hv; reflexivity]
         |apply (HP db) in Hbad; congruence]).
    + intros H. destruct (gormtool.BuildQuery db (Some qb)) as [db'|] eqn:E; [eauto|].
      apply HP in E. apply existsb_exists in E as (cond & Hin & Hbad).
      unfold bad_like in Hbad. apply andb_true_iff in Hbad as [Hop Hv].
      apply String.eqb_eq in Hop.
      destruct (H cond (proj2 (list_elem_of_In _ _) Hin) Hop) as [s Hs].
      rewrite Hs in Hv. discriminate.
  - rewrite <- (HP session). unfold gormtool.GetByQueryBuilder.
    destruct (gormtool.BuildQuery session (Some qb)) as [db0|]; [|tauto].
    split; [|discriminate].
    destruct (finisher.Count (DB t) db0) as [h [err|total]]; [discriminate|].
    destruct (finisher.Find h _) as [h2 [err|rows]]; discriminate.
Qed.

(** ** The cache shim *)

Section Cache.


Lemma DeleteFromCache_DB (t : CRUDTool) (key : string) :
  DB (fst (gormtool.DeleteFromCache t key)) = DB t.
Proof.
  unfold gormtool.DeleteFromCache. destruct (RedisClient t) as [rdb|]; [|reflexivity].
  destruct (negb (alive rdb)); reflexivity.
Qed.






End Cache.


(** ** Soft delete and restore *)

Section SoftDelete.

Lemma filter_none {A} (P : A -> Prop) `{forall x, Decision (P x)} (l : list A) :
  (forall x, x ∈ l -> ~ P x) -> filter P l = [].
Proof.
  induction l as [|x l IH]; intros Hl; [reflexivity|].
  rewrite filter_cons. destruct (decide (P x)) as [HP|_].
  - exfalso. apply (Hl x); [left|exact HP].
  - apply IH. intros y Hy. apply Hl. right. exact Hy.
Qed.

Lemma filter_some {A} (P : A -> Prop) `{forall x, Decision (P x)} (l : list A) (x : A) :
  x ∈ l -> P x -> (0 < length (filter P l))%nat.
Proof.
  intros Hin HP. assert (Hx : x ∈ filter P l) by (apply list_elem_of_filter; auto).
  destruct (filter P l); [inversion Hx|simpl; lia].
Qed.

Lemma map_fixed {A} (f : A -> A) (l : list A) :
  (forall x, x ∈ l -> f x = x) -> map f l = l.
Proof.
  induction l as [|x l IH]; intros Hl; [reflexivity|]. simpl.
  rewrite (Hl x) by left. f_equal. apply IH. intros y Hy. apply Hl. right. exact Hy.
Qed.

Lemma with_users_same (s : Store) : with_users s (users s) = s.
Proof. destruct s; reflexivity. Qed.

Lemma unmark_active (id : Z) (u : User) : DeletedAt u = None -> gorm.unmark id u = u.
Proof.
  intros H. unfold gorm.unmark. destruct (gorm.has_id id u); [|reflexivity].
  destruct u; simpl in *; subst; reflexivity.
Qed.

Lemma next_ok_roundtrip (h : gormDB) :
  next_ok h -> exists h', gorm.roundtrip h = (false, h') /\ data h' = data h /\ now h' = now h.
Proof.
  unfold next_ok, gorm.roundtrip. destruct (driver h) as [|b rest]; simpl.
  - eauto.
  - intros ->. eauto.
Qed.



End SoftDelete.


(** ** Cache invalidation by the write handlers *)

Section Invalidation.

Lemma DeleteFromCache_drops (t : CRUDTool) (id : Z) :
  cache_up t ->
  cached (fst (gormtool.DeleteFromCache t (gormtool.GenerateCacheKey id))) id = None.
Proof.
  intros (rdb & Hr & Ha). unfold gormtool.DeleteFromCache, cached.
  rewrite Hr, Ha. cbn. apply lookup_delete_eq.
Qed.

Lemma cache_up_with_DB (t : CRUDTool) (h : gormDB) : cache_up t -> cache_up (with_DB t h).
Proof. intros (rdb & Hr & Ha). exists rdb. auto. Qed.

(** Update, soft delete and hard delete drop the entry of the record they
    wrote before they answer with success. *)
Lemma UpdateByID_invalidates (t t' : CRUDTool) (c : Context UserJSON) (r : Reply) :
  cache_up t ->
  gormtool.UpdateByID t c = (t', r, None) ->
  cached t' (fst (strconv.Atoi (Param c "id"))) = None.
Proof.
  intros Hup. unfold gormtool.UpdateByID.
  destruct (strconv.Atoi (Param c "id")) as [id [err|]]; [discriminate|].
  destruct (gorm.First (DB t) id) as [h [err|model]]; [discriminate|].
  destruct (ShouldBindJSON c) as [err|body]; [discriminate|].
  destruct (gorm.Save h (unmarshal body model)) as [[h' [err|]] saved]; [discriminate|].
  pose proof (DeleteFromCache_drops (with_DB t h') id (cache_up_with_DB _ _ Hup)) as H.
  destruct (gormtool.DeleteFromCache (with_DB t h') _) as [t1 e1].
  intros [= <- _]. exact H.
Qed.

Lemma SoftDeleteByID_invalidates {B} (t t' : CRUDTool) (c : Context B) (r : Reply) :
  cache_up t ->
  gormtool.SoftDeleteByID t c = (t', r, None) ->
  cached t' (fst (strconv.Atoi (Param c "id"))) = None.
Proof.
  intros Hup. unfold gormtool.SoftDeleteByID.
  destruct (strconv.Atoi (Param c "id")) as [id [err|]]; [discriminate|].
  destruct (gorm.Delete (DB t) id) as [h result].
  destruct (Error result); [discriminate|].
  destruct (RowsAffected result =? 0); [discriminate|].
  pose proof (DeleteFromCache_drops (with_DB t h) id (cache_up_with_DB _ _ Hup)) as H.
  destruct (gormtool.DeleteFromCache (with_DB t h) _) as [t1 e1].
  intros [= <- _]. exact H.
Qed.

Lemma HardDeleteByID_invalidates {B} (t t' : CRUDTool) (c : Context B) (r : Reply) :
  cache_up t ->
  gormtool.HardDeleteByID t c = (t', r, None) ->
  cached t' (fst (strconv.Atoi (Param c "id"))) = None.
Proof.
  intros Hup. unfold gormtool.HardDeleteByID.
  destruct (strconv.Atoi (Param c "id")) as [id [err|]]; [discriminate|].
  destruct (gorm.UnscopedDelete (DB t) [id]) as [h result].
  destruct (Error result); [discriminate|].
  destruct (RowsAffected result =? 0); [discriminate|].
  pose proof (DeleteFromCache_drops (with_DB t h) id (cache_up_with_DB _ _ Hup)) as H.
  destruct (gormtool.DeleteFromCache (with_DB t h) _) as [t1 e1].
  intros [= <- _]. exact H.
Qed.

(** Restore never touches the cache client. *)
Lemma RestoreSoftDelete_keeps_cache {B} (t : CRUDTool) (c : Context B) :
  RedisClient (fst (fst (gormtool.RestoreSoftDelete t c))) = RedisClient t.
Proof.
  unfold gormtool.RestoreSoftDelete.
  destruct (strconv.Atoi (Param c "id")) as [id [err|]]; [reflexivity|].
  destruct (gorm.UnscopedRestore (DB t) id) as [h result].
  destruct (Error result); [reflexivity|].
  destruct (RowsAffected result =? 0); reflexivity.
Qed.

End Invalidation.

(** C2, at a failing input.  Record 1 is soft-deleted and the cache holds
    an entry under its key.  PUT /users/1/restore answers 200 and restores
    the row, but the entry is still in the cache afterwards, and the next
    GET /users/1 is served from it rather than from the restored row. *)
Theorem C2_restore_leaves_cache_entry :
  let t := sample.cached_tool [sample.alice_deleted] in
  let c := sample.by_id (B := unit) "1" None in
  let '(t', r, err) := gormtool.RestoreSoftDelete t c in
  r = respond StatusOK "恢复成功" NoData
  /\ err = None
  /\ users (data (DB t')) = [sample.alice]
  /\ cached t 1 = Some (Encoded sample.alice_cached)
  /\ cached t' 1 = Some (Encoded sample.alice_cached)
  /\ snd (fst (gormtool.GetByID t' c))
     = respond StatusOK "查询成功（缓存）" (OneUser sample.alice_cached).
Proof. vm_compute. repeat split; reflexivity. Qed.

(** ** Batch hard delete *)

(** A successful batch hard delete reports the length of the submitted
    list, whatever the store removed. *)
Lemma batchHardDelete_reports_length (cruder cruder' : CRUDTool) (c : Context (list Z)) (n : Z) :
  main.batchHardDelete cruder c = (cruder', {| Status := StatusOK; Written := H_affected n |}) ->
  exists ids, Body c = Some ids /\ n = Z.of_nat (length ids).
Proof.
  unfold main.batchHardDelete, ShouldBindJSON.
  destruct (Body c) as [ids|]; [|discriminate].
  destruct (gormtool.WithTransaction cruder () _) as [[t1 u] [err|]]; [discriminate|].
  intros [= _ <-]. eauto.
Qed.

(** C1, at a failing input.  The store holds the users 1 and 3; the body
    is {"ids":[1,2,3]}.  The request succeeds and removes two rows, and
    the reply says "affected": 3. *)
Theorem C1_batch_reports_submitted_length :
  let cruder := sample.tool [sample.alice; sample.bob] in
  let '(cruder', r) := main.batchHardDelete cruder sample.batch in
  r = {| Status := StatusOK; Written := H_affected 3 |}
  /\ users (data (DB cruder')) = []
  /\ Z.of_nat (length (users (data (DB cruder))))
     - Z.of_nat (length (users (data (DB cruder')))) = 2.
Proof. vm_compute. repeat split; reflexivity. Qed.

(** ** Transactions and the cascade create *)

Section Transactions.

Lemma save_tags_users (db db' : gormDB) (uid : Z) (ts ts' : list Tag) (err : option error) :
  gorm.save_tags db uid ts = (db', err, ts') -> users (data db') = users (data db).
Proof.
  unfold gorm.save_tags. destruct ts as [|t0 ts0]; [intros [= <- _ _]; reflexivity|].
  pose proof (roundtrip_data db) as Hd.
  destruct (gorm.roundtrip db) as [bad db1]; simpl in Hd.
  destruct bad; [intros [= <- _ _]; rewrite Hd; reflexivity|].
  destruct (gorm.insert_tags (t0 :: ts0) (tags (data db1))) as [table ts1].
  match goal with |- context [gorm.roundtrip ?h] =>
    pose proof (roundtrip_data h) as Hd2; destruct (gorm.roundtrip h) as [bad2 db2] end.
  simpl in Hd2.
  destruct bad2; intros [= <- _ _]; cbn [with_data data users]; rewrite ?Hd2; cbn; rewrite Hd;
    reflexivity.
Qed.

Lemma CreateUser_row (tx tx1 : gormDB) (u0 u : User) :
  gorm.CreateUser tx u0 = (tx1, None, u) -> gorm.row u ∈ users (data tx1).
Proof.
  unfold gorm.CreateUser.
  destruct (gorm.roundtrip tx) as [bad db1].
  destruct bad; [discriminate|].
  destruct (negb (ID u0 =? 0) && _); [discriminate|].
  match goal with |- context [gorm.save_tags ?h ?i ?l] =>
    destruct (gorm.save_tags h i l) as [[db2 err] ts] eqn:Hs end.
  apply save_tags_users in Hs. cbn [with_data data with_users users] in Hs.
  intros [= <- -> <-]. rewrite Hs. apply elem_of_app. right. left.
Qed.

Lemma rollback_data (db tx : gormDB) : data (gorm.rollback db tx) = data db.
Proof. unfold gorm.rollback. destruct (gorm.roundtrip tx). reflexivity. Qed.

(** The wrapper as a whole: a failing closure leaves the data as it was at
    BEGIN and its error is the wrapper's error. *)
Lemma WithTransaction_failure {S} (t : CRUDTool) (s s' : S) (tx0 tx : gormDB)
    (fn : gormDB -> S -> gormDB * S * option error) (e : error) :
  gorm.roundtrip (DB t) = (false, tx0) ->
  fn tx0 s = (tx, s', Some e) ->
  exists t', gormtool.WithTransaction t s fn = (t', s', Some e)
             /\ data (DB t') = data (DB t)
             /\ RedisClient t' = RedisClient t.
Proof.
  intros Hb Hf. unfold gormtool.WithTransaction, gorm.Transaction.
  rewrite Hb, Hf. eexists. split; [reflexivity|]. split; [|reflexivity].
  cbn [with_DB DB]. apply rollback_data.
Qed.

End Transactions.

(** C3. In the cascade create, once the transaction has begun and the user
    has been created in it, a failure of the profile step or of the tags
    step makes the handler answer 500 with that very error, and the store
    afterwards holds exactly the data it held before the request: the user
    row that existed inside the transaction (and the profile row, when the
    tags step is the one that fails) is gone. *)
Theorem C3_cascade_create_rolls_back (cruder : CRUDTool) (c : Context payload) (req : payload)
    (tx0 tx1 : gormDB) (u : User) (e : error) :
  Body c = Some req ->
  gorm.roundtrip (DB cruder) = (false, tx0) ->
  gorm.CreateUser tx0 (payload_User req) = (tx1, None, u) ->
  later_step_fails tx1 u req e ->
  exists cruder',
    main.createUserWithEverything cruder c
    = (cruder', {| Status := StatusInternalServerError; Written := H_msg e |})
    /\ data (DB cruder') = data (DB cruder)
    /\ gorm.row u ∈ users (data tx1).
Proof.
  intros Hbody Hbegin Hcreate Hlater.
  assert (Hfail : exists tx req',
             main.create_everything tx0 req = (tx, req', Some e)).
  { unfold main.create_everything. rewrite Hcreate.
    destruct Hlater as [(tx2 & p & H2)|(tx2 & p & tx3 & u' & H2 & H3)].
    - rewrite H2. eauto.
    - rewrite H2, H3. eauto. }
  destruct Hfail as (tx & req' & Hfail).
  destruct (WithTransaction_failure cruder req req' tx0 tx main.create_everything e
              Hbegin Hfail) as (cruder' & HW & Hdata & _).
  exists cruder'. split; [|split].
  - unfold main.createUserWithEverything, ShouldBindJSON. rewrite Hbody, HW. reflexivity.
  - exact Hdata.
  - eapply CreateUser_row. exact Hcreate.
Qed.

(** ** Update: load, bind, save *)

Section Update.

Lemma head_filter_elem {A} (P : A -> Prop) `{forall x, Decision (P x)} (l : list A) (x : A) :
  head (filter P l) = Some x -> x ∈ l /\ P x.
Proof.
  intros Hh. assert (Hx : x ∈ filter P l).
  { destruct (filter P l) as [|y l']; [discriminate|]. injection Hh as ->. left. }
  apply list_elem_of_filter in Hx. tauto.
Qed.

Lemma find_active_spec (s : Store) (id : Z) (u : User) :
  gorm.find_active s id = Some u -> u ∈ users s /\ ID u = id /\ DeletedAt u = None.
Proof.
  unfold gorm.find_active. intros H. apply head_filter_elem in H as [Hin HP].
  apply andb_true_iff in HP as [Hid Hact].
  unfold gorm.has_id in Hid. apply Z.eqb_eq in Hid.
  unfold gorm.active in Hact. apply bool_decide_eq_true in Hact. auto.
Qed.

Lemma next_id_fresh (ids : list Z) (x : Z) : x ∈ ids -> x < gorm.next_id ids.
Proof.
  unfold gorm.next_id. induction ids as [|y ids IH]; intros Hx; [inversion Hx|].
  simpl. apply elem_of_cons in Hx as [->|Hx]; [lia|]. specialize (IH Hx). lia.
Qed.




End Update.

Section Save.



Lemma head_filter_none {A} (P : A -> Prop) `{forall x, Decision (P x)} (l : list A) :
  head (filter P l) = None -> forall x, x ∈ l -> ~ P x.
Proof.
  intros Hh x Hx HP. assert (Hin : x ∈ filter P l) by (apply list_elem_of_filter; auto).
  destruct (filter P l); [inversion Hin|discriminate].
Qed.


End Save.


(** * Further properties *)

(** ** Cache keys *)

Section CacheKeys.

Lemma append_inj_l (p a b : string) : (p ++ a)%string = (p ++ b)%string -> a = b.
Proof. induction p as [|ch p IH]; cbn; [tauto|]. intros H. injection H. exact IH. Qed.

Lemma GenerateCacheKey_inj (id id' : Z) :
  gormtool.GenerateCacheKey id = gormtool.GenerateCacheKey id' -> id = id'.
Proof.
  unfold gormtool.GenerateCacheKey. intros H.
  apply append_inj_l in H. exact (pretty_Z_inj _ _ H).
Qed.

Lemma DeleteFromCache_other (t : CRUDTool) (id id' : Z) :
  id' <> id ->
  cached (fst (gormtool.DeleteFromCache t (gormtool.GenerateCacheKey id))) id' = cached t id'.
Proof.
  intros Hne. unfold gormtool.DeleteFromCache, cached.
  destruct (RedisClient t) as [rdb|] eqn:Hr; cbn; [|now rewrite Hr].
  destruct (alive rdb); cbn; [|now rewrite Hr].
  apply lookup_delete_ne. intros H. apply Hne. symmetry. exact (GenerateCacheKey_inj _ _ H).
Qed.

Lemma SetToCache_other (t : CRUDTool) (id id' : Z) (u : User) :
  id' <> id ->
  cached (fst (gormtool.SetToCache t (gormtool.GenerateCacheKey id) u)) id' = cached t id'.
Proof.
  intros Hne. unfold gormtool.SetToCache, cached.
  destruct (RedisClient t) as [rdb|] eqn:Hr; cbn; [|now rewrite Hr].
  destruct (alive rdb); cbn; [|now rewrite Hr].
  apply lookup_insert_ne. intros H. apply Hne. symmetry. exact (GenerateCacheKey_inj _ _ H).
Qed.

Lemma GetByID_other {B} (t : CRUDTool) (c : Context B) (id' : Z) :
  id' <> fst (strconv.Atoi (Param c "id")) ->
  cached (fst (fst (gormtool.GetByID t c))) id' = cached t id'.
Proof.
  intros Hne. unfold gormtool.GetByID.
  destruct (strconv.Atoi (Param c "id")) as [id [err|]]; cbn [fst] in *; [reflexivity|].
  destruct (gormtool.GetFromCache t _ zero_User) as [[|] m]; [reflexivity|].
  destruct (gorm.First (DB t) id) as [h [err|model]]; [reflexivity|].
  pose proof (SetToCache_other (with_DB t h) id id' model Hne) as H.
  destruct (gormtool.SetToCache (with_DB t h) _ model) as [t1 e]. exact H.
Qed.

Lemma UpdateByID_other (t : CRUDTool) (c : Context UserJSON) (id' : Z) :
  id' <> fst (strconv.Atoi (Param c "id")) ->
  cached (fst (fst (gormtool.UpdateByID t c))) id' = cached t id'.
Proof.
  intros Hne. unfold gormtool.UpdateByID.
  destruct (strconv.Atoi (Param c "id")) as [id [err|]]; cbn [fst] in *; [reflexivity|].
  destruct (gorm.First (DB t) id) as [h [err|model]]; [reflexivity|].
  destruct (ShouldBindJSON c) as [err|body]; [reflexivity|].
  destruct (gorm.Save h _) as [[h1 [err|]] m]; [reflexivity|].
  pose proof (DeleteFromCache_other (with_DB t h1) id id' Hne) as H.
  destruct (gormtool.DeleteFromCache (with_DB t h1) _) as [t1 e]. exact H.
Qed.

Lemma SoftDeleteByID_other {B} (t : CRUDTool) (c : Context B) (id' : Z) :
  id' <> fst (strconv.Atoi (Param c "id")) ->
  cached (fst (fst (gormtool.SoftDeleteByID t c))) id' = cached t id'.
Proof.
  intros Hne. unfold gormtool.SoftDeleteByID.
  destruct (strconv.Atoi (Param c "id")) as [id [err|]]; cbn [fst] in *; [reflexivity|].
  destruct (gorm.Delete (DB t) id) as [h res].
  destruct (Error res); [reflexivity|].
  destruct (RowsAffected res =? 0); [reflexivity|].
  pose proof (DeleteFromCache_other (with_DB t h) id id' Hne) as H.
  destruct (gormtool.DeleteFromCache (with_DB t h) _) as [t1 e]. exact H.
Qed.

Lemma HardDeleteByID_other {B} (t : CRUDTool) (c : Context B) (id' : Z) :
  id' <> fst (strconv.Atoi (Param c "id")) ->
  cached (fst (fst (gormtool.HardDeleteByID t c))) id' = cached t id'.
Proof.
  intros Hne. unfold gormtool.HardDeleteByID.
  destruct (strconv.Atoi (Param c "id")) as [id [err|]]; cbn [fst] in *; [reflexivity|].
  destruct (gorm.UnscopedDelete (DB t) [id]) as [h res].
  destruct (Error res); [reflexivity|].
  destruct (RowsAffected res =? 0); [reflexivity|].
  pose proof (DeleteFromCache_other (with_DB t h) id id' Hne) as H.
  destruct (gormtool.DeleteFromCache (with_DB t h) _) as [t1 e]. exact H.
Qed.

End CacheKeys.

(** X1.  Cache keys are per record: two ids never share a key, so a
    handler that reads, updates or deletes the record named in the request
    leaves the cache entry of every other record as it was. *)
Theorem X1_cache_entries_are_per_record {B : Type} (t : CRUDTool) (c : Context B)
    (cu : Context UserJSON) :
  (forall id id', gormtool.GenerateCacheKey id = gormtool.GenerateCacheKey id' -> id = id')
  /\ (forall id', id' <> fst (strconv.Atoi (Param c "id")) ->
        cached (fst (fst (gormtool.GetByID t c))) id' = cached t id'
        /\ cached (fst (fst (gormtool.SoftDeleteByID t c))) id' = cached t id'
        /\ cached (fst (fst (gormtool.HardDeleteByID t c))) id' = cached t id'
        /\ cached (fst (fst (gormtool.RestoreSoftDelete t c))) id' = cached t id')
  /\ (forall id', id' <> fst (strconv.Atoi (Param cu "id")) ->
        cached (fst (fst (gormtool.UpdateByID t cu))) id' = cached t id').
Proof.
  split; [exact GenerateCacheKey_inj|]. split.
  - intros id' Hne. repeat split.
    + now apply GetByID_other.
    + now apply SoftDeleteByID_other.
    + now apply HardDeleteByID_other.
    + unfold cached. now rewrite RestoreSoftDelete_keeps_cache.
  - intros id' Hne. now apply UpdateByID_other.
Qed.

(** ** Life cycle of a record: soft delete, restore, hard delete *)

Section LifeCycle.

Lemma not_found_reply (message : string) :
  gormtool.not_found_or message ErrRecordNotFound = respond StatusNotFound "记录不存在" NoData.
Proof. reflexivity. Qed.

Lemma GetFromCache_absent (t : CRUDTool) (id : Z) (result : User) :
  cached t id = None \/ (exists s, cached t id = Some (Raw s)) ->
  gormtool.GetFromCache t (gormtool.GenerateCacheKey id) result = (false, result).
Proof.
  unfold cached, gormtool.GetFromCache. destruct (RedisClient t) as [rdb|]; [|reflexivity].
  destruct (alive rdb); [|reflexivity]. cbn [negb].
  intros [->|[s ->]]; reflexivity.
Qed.



Lemma find_active_none (s : Store) (id : Z) :
  (forall x, x ∈ users s -> (gorm.has_id id x && gorm.active x) = false) ->
  gorm.find_active s id = None.
Proof.
  intros H. unfold gorm.find_active. rewrite filter_none; [reflexivity|].
  intros x Hx. rewrite (H x Hx). discriminate.
Qed.

Lemma find_unscoped_none (s : Store) (id : Z) :
  (forall x, x ∈ users s -> ID x <> id) -> gorm.find_unscoped s id = None.
Proof.
  intros H. unfold gorm.find_unscoped. rewrite filter_none; [reflexivity|].
  intros x Hx Hid. apply (H x Hx). apply Z.eqb_eq. exact Hid.
Qed.



Lemma HardDeleteByID_ok {B} (t : CRUDTool) (c : Context B) (id : Z) (u : User) :
  strconv.Atoi (Param c "id") = (id, None) ->
  driver (DB t) = [] ->
  u ∈ users (data (DB t)) -> ID u = id ->
  gormtool.HardDeleteByID t c
  = (fst (gormtool.DeleteFromCache
            (with_DB t (with_data (DB t)
                          (with_users (data (DB t))
                             (filter (fun r => gorm.listed [id] r = false)
                                     (users (data (DB t)))))))
            (gormtool.GenerateCacheKey id)),
     respond StatusOK "永久删除成功" NoData, None).
Proof.
  intros HA Hd Hu Hid. unfold gormtool.HardDeleteByID, gorm.UnscopedDelete.
  rewrite HA, (roundtrip_nil _ Hd). cbn [Error RowsAffected gorm.affected].
  assert (Hlen : (0 < length (filter (fun r => gorm.listed [id] r = true)
                                (users (data (DB t)))))%nat).
  { apply (filter_some _ _ u Hu). unfold gorm.listed.
    apply bool_decide_eq_true_2. rewrite Hid. apply list_elem_of_singleton. reflexivity. }
  destruct (Z.of_nat _ =? 0) eqn:E; [apply Z.eqb_eq in E; lia|].
  destruct (gormtool.DeleteFromCache _ _) as [t1 e]. reflexivity.
Qed.

Lemma listed_single (id : Z) (r : User) : gorm.listed [id] r = false <-> ID r <> id.
Proof.
  unfold gorm.listed. rewrite bool_decide_eq_false, list_elem_of_singleton. tauto.
Qed.

(** A lookup that misses the cache and finds no active row. *)
Lemma GetByID_not_found {B} (t : CRUDTool) (c : Context B) (id : Z) :
  strconv.Atoi (Param c "id") = (id, None) ->
  driver (DB t) = [] ->
  gormtool.GetFromCache t (gormtool.GenerateCacheKey id) zero_User = (false, zero_User) ->
  gorm.find_active (data (DB t)) id = None ->
  gormtool.GetByID t c
  = (with_DB t (DB t), respond StatusNotFound "记录不存在" NoData, Some ErrRecordNotFound).
Proof.
  intros HA Hd Hc Hf. unfold gormtool.GetByID, gorm.First.
  rewrite HA, Hc, (roundtrip_nil _ Hd), Hf. reflexivity.
Qed.

Lemma with_DB_same (t : CRUDTool) : with_DB t (DB t) = t.
Proof. destruct t; reflexivity. Qed.

Lemma with_data_same (h : gormDB) : with_data h (data h) = h.
Proof. destruct h; reflexivity. Qed.


End LifeCycle.


Section Visibility.

Lemma preload_one (rels : list string) :
  forall (h : gormDB) (x : User),
    driver h = [] ->
    forallb (fun r => String.eqb r "Tags") rels = true ->
    finisher.preload h rels [x]
    = (h, inr [match rels with
               | [] => x
               | _ => gorm.set_Tags x (finisher.tags_of (data h) (ID x))
               end]).
Proof.
  induction rels as [|r rest IH]; intros h x Hd Hrels; [reflexivity|].
  cbn [forallb] in Hrels. apply andb_true_iff in Hrels as [Hr Hrest].
  cbn [finisher.preload]. rewrite Hr, (roundtrip_nil _ Hd). cbn [map].
  rewrite (IH h _ Hd Hrest). destruct rest; reflexivity.
Qed.

Lemma find_unscoped_spec (s : Store) (id : Z) (u : User) :
  gorm.find_unscoped s id = Some u -> u ∈ users s /\ ID u = id.
Proof.
  unfold gorm.find_unscoped. intros H. apply head_filter_elem in H as [Hin Hid].
  split; [exact Hin|]. apply Z.eqb_eq. exact Hid.
Qed.

Lemma deleted_inactive (s : Store) (id : Z) :
  deleted_or_absent s id ->
  forall x, x ∈ users s -> (gorm.has_id id x && gorm.active x) = false.
Proof.
  intros Hgone x Hx. unfold gorm.has_id, gorm.active.
  destruct (ID x =? id) eqn:Ex; [|reflexivity].
  apply Z.eqb_eq in Ex. cbn [andb]. apply bool_decide_eq_false. exact (Hgone x Hx Ex).
Qed.

End Visibility.

(** X3.  A soft-deleted record is hidden from the plain handlers and shown
    by the one that includes deleted records: [GetByID] and [UpdateByID]
    answer 404 and change nothing, while [GetByIDWithSoftDelete] answers
    200 with the record's columns, its deletion marker set, and with its
    tags when they are preloaded. *)
Theorem X3_soft_deleted_record_visibility {B : Type} (t : CRUDTool) (c : Context B)
    (cu : Context UserJSON) (id : Z) (u : User) (rels : list string) :
  strconv.Atoi (Param c "id") = (id, None) ->
  strconv.Atoi (Param cu "id") = (id, None) ->
  driver (DB t) = [] ->
  cached t id = None ->
  gorm.find_unscoped (data (DB t)) id = Some u ->
  deleted_or_absent (data (DB t)) id ->
  forallb (fun r => String.eqb r "Tags") rels = true ->
  gormtool.GetByID t c
  = (t, respond StatusNotFound "记录不存在" NoData, Some ErrRecordNotFound)
  /\ gormtool.UpdateByID t cu
     = (t, respond StatusNotFound "记录不存在" NoData, Some ErrRecordNotFound)
  /\ exists m,
       crud.GetByIDWithSoftDelete t c rels
       = (t, respond StatusOK "查询成功" (OneUser m), None)
       /\ ID m = id /\ DeletedAt m = DeletedAt u /\ DeletedAt m <> None
       /\ Name m = Name u /\ Age m = Age u
       /\ Tags m = match rels with
                   | [] => []
                   | _ => finisher.tags_of (data (DB t)) id
                   end.
Proof.
  intros HA HAu Hd Hc Hf Hgone Hrels.
  pose proof (find_active_none _ _ (deleted_inactive _ _ Hgone)) as Hnone.
  destruct (find_unscoped_spec _ _ _ Hf) as [Hin Hid].
  split; [|split].
  - rewrite (GetByID_not_found t c id HA Hd (GetFromCache_absent _ _ _ (or_introl Hc)) Hnone).
    now rewrite with_DB_same.
  - unfold gormtool.UpdateByID, gorm.First.
    rewrite HAu, (roundtrip_nil _ Hd), Hnone, with_DB_same. reflexivity.
  - unfold crud.GetByIDWithSoftDelete, orm.UnscopedFirst.
    rewrite HA, (roundtrip_nil _ Hd), Hf, (preload_one rels _ _ Hd Hrels), with_DB_same.
    eexists. split; [reflexivity|]. cbn [head default].
    pose proof (Hgone u Hin Hid) as Hdel.
    destruct rels; cbn; rewrite ?Hid; auto 10.
Qed.

(** X4.  A hard delete is final.  Every row with the key is gone, deleted
    or not, the other rows stay, and afterwards neither the restore
    handler nor the lookup that includes deleted records finds the
    record: both answer 404. *)
Theorem X4_hard_delete_is_final {B : Type} (t : CRUDTool) (c : Context B) (id : Z)
    (rels : list string) :
  strconv.Atoi (Param c "id") = (id, None) ->
  driver (DB t) = [] ->
  (exists u, u ∈ users (data (DB t)) /\ ID u = id) ->
  exists t1,
    gormtool.HardDeleteByID t c = (t1, respond StatusOK "永久删除成功" NoData, None)
    /\ (forall r, r ∈ users (data (DB t1)) <-> r ∈ users (data (DB t)) /\ ID r <> id)
    /\ gormtool.RestoreSoftDelete t1 c
       = (t1, respond StatusNotFound "记录不存在" NoData, Some ErrRecordNotFound)
    /\ crud.GetByIDWithSoftDelete t1 c rels
       = (t1, respond StatusNotFound "记录不存在" NoData, Some ErrRecordNotFound).
Proof.
  intros HA Hd (u & Hu & Hid).
  rewrite (HardDeleteByID_ok t c id u HA Hd Hu Hid).
  set (h1 := with_data _ _).
  set (t1 := fst (gormtool.DeleteFromCache (with_DB t h1) _)).
  assert (HDB : DB t1 = h1) by apply DeleteFromCache_DB.
  assert (Hd1 : driver (DB t1) = []) by (rewrite HDB; exact Hd).
  assert (Hrows : forall r, r ∈ users (data (DB t1)) <-> r ∈ users (data (DB t)) /\ ID r <> id).
  { intros r. rewrite HDB. cbn [h1 with_data data with_users users].
    rewrite list_elem_of_filter, listed_single. tauto. }
  assert (Hnone : gorm.find_unscoped (data (DB t1)) id = None).
  { apply find_unscoped_none. intros x Hx. apply Hrows in Hx. tauto. }
  exists t1. split; [reflexivity|]. split; [exact Hrows|]. split.
  - unfold gormtool.RestoreSoftDelete, gorm.UnscopedRestore.
    rewrite HA, (roundtrip_nil _ Hd1). cbn [Error RowsAffected gorm.affected].
    unfold gorm.find_unscoped in Hnone.
    rewrite filter_none.
    + cbn [length Z.of_nat Z.eqb].
      rewrite map_fixed, with_users_same, with_data_same, with_DB_same; [reflexivity|].
      intros x Hx. apply Hrows in Hx as [_ Hx]. unfold gorm.unmark, gorm.has_id.
      rewrite (proj2 (Z.eqb_neq _ _) Hx). reflexivity.
    + intros x Hx Hxid. apply Hrows in Hx. apply Z.eqb_eq in Hxid. tauto.
  - unfold crud.GetByIDWithSoftDelete, orm.UnscopedFirst.
    rewrite HA, (roundtrip_nil _ Hd1), Hnone, with_DB_same. reflexivity.
Qed.


(** ** Reading through the cache *)

Section ReadThrough.

Lemma save_tags_nil (db : gormDB) (uid : Z) (ts : list Tag) :
  driver db = [] ->
  exists db' ts', gorm.save_tags db uid ts = (db', None, ts')
                  /\ users (data db') = users (data db)
                  /\ profiles (data db') = profiles (data db)
                  /\ driver db' = [].
Proof.
  intros Hd. unfold gorm.save_tags. destruct ts as [|t0 ts0]; [eauto 10|].
  rewrite (roundtrip_nil db Hd).
  destruct (gorm.insert_tags (t0 :: ts0) (tags (data db))) as [table ts1].
  rewrite roundtrip_nil by exact Hd. eauto 10.
Qed.



End ReadThrough.

(** X6.  [GetByID] reads through the cache.  With a cache client that
    answers and no entry for the id, the record is read from the store and
    an entry holding it is written; the same request is then answered from
    the cache with the same record, without a statement being sent to the
    driver. *)
Theorem X6_GetByID_reads_through {B : Type} (t : CRUDTool) (c : Context B) (id : Z)
    (u : User) :
  strconv.Atoi (Param c "id") = (id, None) ->
  cache_up t ->
  cached t id = None ->
  next_ok (DB t) ->
  gorm.find_active (data (DB t)) id = Some u ->
  exists t1,
    gormtool.GetByID t c = (t1, respond StatusOK "查询成功" (OneUser (gorm.row u)), None)
    /\ data (DB t1) = data (DB t)
    /\ cached t1 id = Some (Encoded (gorm.row u))
    /\ gormtool.GetByID t1 c
       = (t1, respond StatusOK "查询成功（缓存）" (OneUser (gorm.row u)), None).
Proof.
  intros HA (rdb & Hr & Ha) Hc Hok Hf.
  destruct (next_ok_roundtrip _ Hok) as (h & Hrt & Hdata & _).
  unfold gormtool.GetByID at 1. unfold gorm.First.
  rewrite HA, (GetFromCache_absent _ _ _ (or_introl Hc)), Hrt, Hdata, Hf.
  unfold gormtool.SetToCache. cbn [with_DB RedisClient DB]. rewrite Hr, Ha. cbn [negb].
  eexists. split; [reflexivity|]. split; [exact Hdata|]. split.
  - unfold cached. cbn [RedisClient entries]. apply lookup_insert_eq.
  - unfold gormtool.GetByID, gormtool.GetFromCache. rewrite HA.
    cbn [RedisClient entries alive negb]. rewrite lookup_insert_eq. reflexivity.
Qed.



(** ** Transactions and creation *)


(** X10.  The cascade create, when nothing fails: a request that leaves
    the keys to the store is answered 201 with the user under a key larger
    than every key in use; the store gains exactly that user row and one
    profile row, and the profile points at the new user. *)
Theorem X10_cascade_create_succeeds (cruder : CRUDTool) (c : Context payload) (req : payload) :
  Body c = Some req ->
  driver (DB cruder) = [] ->
  ID (payload_User req) = 0 ->
  Profile_ID (payload_Profile req) = 0 ->
  exists cruder' u p,
    main.createUserWithEverything cruder c
    = (cruder', {| Status := StatusCreated; Written := H_data u |})
    /\ (forall r, r ∈ users (data (DB cruder)) -> ID r < ID u)
    /\ Name u = Name (payload_User req) /\ Age u = Age (payload_User req)
    /\ users (data (DB cruder')) = users (data (DB cruder)) ++ [gorm.row u]
    /\ profiles (data (DB cruder')) = profiles (data (DB cruder)) ++ [p]
    /\ Profile_UserID p = ID u
    /\ Avatar p = Avatar (payload_Profile req) /\ Bio p = Bio (payload_Profile req).
Proof.
  intros Hb Hd HuID HpID.
  unfold main.createUserWithEverything, ShouldBindJSON, gormtool.WithTransaction,
    gorm.Transaction.
  rewrite Hb, (roundtrip_nil _ Hd).
  unfold main.create_everything, gorm.CreateUser.
  rewrite (roundtrip_nil _ Hd), HuID. cbn [Z.eqb negb andb].
  set (u1 := gorm.set_ID (payload_User req) _).
  set (h1 := with_data _ _).
  destruct (save_tags_nil h1 (ID u1) (Tags u1) Hd) as (h2 & ts1 & Hs1 & Hu1 & Hp1 & Hd2).
  rewrite Hs1.
  unfold gorm.CreateProfile. rewrite (roundtrip_nil _ Hd2).
  cbn [main.set_UserID Profile_ID]. rewrite HpID. cbn [Z.eqb negb andb].
  set (p := gorm.set_Profile_ID _ _).
  set (h3 := with_data h2 _).
  unfold gorm.AppendTags.
  destruct (save_tags_nil h3 (ID (gorm.set_Tags u1 ts1)) (payload_Tags req) Hd2)
    as (h4 & ts2 & Hs2 & Hu2 & Hp2 & Hd4).
  rewrite Hs2, (roundtrip_nil _ Hd4).
  eexists _, _, p. split; [reflexivity|].
  cbn [with_DB DB].
  assert (Hfresh : forall r, r ∈ users (data (DB cruder)) -> ID r < ID u1).
  { intros r Hr. assert (Hin : ID r ∈ map ID (users (data (DB cruder)))).
    { apply list_elem_of_In, in_map, list_elem_of_In, Hr. }
    apply next_id_fresh in Hin. exact Hin. }
  split; [exact Hfresh|]. split; [reflexivity|]. split; [reflexivity|].
  split; [rewrite Hu2; cbn [h3 with_data data users]; rewrite Hu1; reflexivity|].
  split; [rewrite Hp2; cbn [h3 with_data data profiles]; rewrite Hp1; reflexivity|].
  split; [reflexivity|]. split; reflexivity.
Qed.

(** X11.  [Create] inserts and never overwrites.  A body without a key
    (or with key 0) is stored under a key larger than every key in use; a
    body with an unused key is stored under that key; a body carrying the
    key of a row that exists, deleted or not, is answered 500 and the
    store is left as it was. *)
Theorem X11_Create_inserts_or_refuses (t : CRUDTool) (c : Context UserJSON) (body : UserJSON) :
  Body c = Some body ->
  driver (DB t) = [] ->
  let k := default 0 (json_ID body) in
  let inserted t' u :=
    crud.Create t c = (t', respond StatusCreated "创建成功" (OneUser u), None)
    /\ users (data (DB t')) = users (data (DB t)) ++ [gorm.row u]
    /\ Name u = default EmptyString (json_Name body)
    /\ Age u = default 0 (json_Age body) in
  (k = 0 ->
   exists t' u, inserted t' u /\ forall r, r ∈ users (data (DB t)) -> ID r < ID u)
  /\ (k <> 0 -> (forall r, r ∈ users (data (DB t)) -> ID r <> k) ->
      exists t' u, inserted t' u /\ ID u = k)
  /\ (k <> 0 -> (exists r, r ∈ users (data (DB t)) /\ ID r = k) ->
      crud.Create t c
      = (t, respond StatusInternalServerError "创建失败" NoData, Some ErrConstraint)).
Proof.
  intros Hb Hd k inserted. subst inserted. cbv beta.
  set (m := unmarshal body zero_User).
  assert (Hk : ID m = k) by reflexivity.
  unfold crud.Create, ShouldBindJSON, gorm.CreateUser.
  rewrite Hb, (roundtrip_nil _ Hd). fold m. rewrite Hk.
  split; [|split].
  - intros Hz. rewrite Hz. cbn [Z.eqb negb andb].
    set (u1 := gorm.set_ID m _). set (h1 := with_data _ _).
    destruct (save_tags_nil h1 (ID u1) (Tags u1) Hd) as (h2 & ts1 & Hs1 & Hu1 & _ & _).
    rewrite Hs1. eexists _, _. split; [split; [reflexivity|]|].
    + cbn [with_DB DB]. rewrite Hu1. auto.
    + intros r Hr. assert (Hin : ID r ∈ map ID (users (data (DB t)))).
      { apply list_elem_of_In, in_map, list_elem_of_In, Hr. }
      apply next_id_fresh in Hin. exact Hin.
  - intros Hnz Hfree. rewrite (proj2 (Z.eqb_neq _ _) Hnz). cbn [negb andb].
    rewrite (find_unscoped_none _ _ Hfree).
    rewrite bool_decide_eq_false_2 by (intros [x Hx]; discriminate).
    set (h1 := with_data _ _).
    destruct (save_tags_nil h1 (ID m) (Tags m) Hd) as (h2 & ts1 & Hs1 & Hu1 & _ & _).
    rewrite Hs1. eexists _, _. split; [split; [reflexivity|]|exact Hk].
    cbn [with_DB DB]. rewrite Hu1. auto.
  - intros Hnz (r & Hr & Hid). rewrite (proj2 (Z.eqb_neq _ _) Hnz). cbn [negb andb].
    assert (Hsome : is_Some (gorm.find_unscoped (data (DB t)) k)).
    { unfold gorm.find_unscoped.
      destruct (filter _ _) as [|x l] eqn:E; [|eexists; reflexivity].
      exfalso. assert (Hin : r ∈ filter (fun u => gorm.has_id k u = true) (users (data (DB t)))).
      { apply list_elem_of_filter. split; [|exact Hr]. apply Z.eqb_eq. exact Hid. }
      rewrite E in Hin. inversion Hin. }
    rewrite (bool_decide_eq_true_2 _ Hsome), with_DB_same. reflexivity.
Qed.

(** ** The query builder and the pager *)

Section Queries.

Lemma build_condition_shape (db db' : Stmt) (cond : QueryCondition.t) :
  gormtool.build_condition db cond = Done db' ->
  db' = db
  \/ exists p, db' = Where db p /\ sqlstore.field_of p = QueryCondition.Field cond.
Proof.
  destruct cond as [field op value]. unfold gormtool.build_condition.
  cbn [QueryCondition.Operator QueryCondition.Field QueryCondition.Value].
  destruct (existsb _ _); [intros [= <-]; right; eexists; split; reflexivity|].
  destruct (String.eqb op "LIKE").
  { destruct value; try discriminate. intros [= <-]. right. eexists. split; reflexivity. }
  destruct (String.eqb op "IN"); [intros [= <-]; right; eexists; split; reflexivity|].
  destruct (String.eqb op "NOT IN"); [intros [= <-]; right; eexists; split; reflexivity|].
  destruct (String.eqb op "BETWEEN"); [|intros [= <-]; left; reflexivity].
  destruct value as [| | | |l]; try (intros [= <-]; left; reflexivity).
  destruct l as [|lo [|hi [|x l]]]; try (intros [= <-]; left; reflexivity).
  intros [= <-]. right. eexists. split; reflexivity.
Qed.

Lemma build_conditions_shape (conds : list QueryCondition.t) :
  forall db db',
    gormtool.build_conditions db conds = Done db' ->
    orders db' = orders db /\ preloads db' = preloads db
    /\ limit db' = limit db /\ offset db' = offset db
    /\ exists ps,
         wheres db' = wheres db ++ ps
         /\ (length ps <= length conds)%nat
         /\ forall p, p ∈ ps ->
              exists cond, cond ∈ conds /\ sqlstore.field_of p = QueryCondition.Field cond.
Proof.
  induction conds as [|cond conds IH]; intros db db'; cbn [gormtool.build_conditions].
  - intros [= <-]. repeat split. exists []. rewrite app_nil_r.
    repeat split; [cbn; lia|]. intros p Hp. inversion Hp.
  - destruct (gormtool.build_condition db cond) as [db1|] eqn:E; [|discriminate].
    intros H. apply IH in H as (Ho & Hp & Hl & Hf & ps & Hw & Hlen & Hps).
    apply build_condition_shape in E as [->|(p & -> & Hfield)].
    + repeat split; auto. exists ps. repeat split; [exact Hw|cbn; lia|].
      intros q Hq. destruct (Hps q Hq) as (cd & Hcd & Hfd). exists cd. split; [now right|exact Hfd].
    + cbn in *. repeat split; auto. exists (p :: ps). repeat split.
      * rewrite Hw, <- app_assoc. reflexivity.
      * cbn. lia.
      * intros q Hq. apply elem_of_cons in Hq as [->|Hq].
        -- exists cond. split; [now left|exact Hfield].
        -- destruct (Hps q Hq) as (cd & Hcd & Hfd). exists cd. split; [now right|exact Hfd].
Qed.

Lemma foldl_Order (sorts : list SortCondition.t) :
  forall db,
    let db' := foldl (fun db sort =>
                        Order db (SortCondition.Field sort) (SortCondition.Direction sort))
                     db sorts in
    wheres db' = wheres db
    /\ orders db' = orders db
                    ++ map (fun s => (SortCondition.Field s, SortCondition.Direction s)) sorts
    /\ preloads db' = preloads db /\ limit db' = limit db /\ offset db' = offset db.
Proof.
  induction sorts as [|s sorts IH]; intros db; cbn [foldl map].
  - rewrite app_nil_r. auto.
  - destruct (IH (Order db (SortCondition.Field s) (SortCondition.Direction s)))
      as (Hw & Ho & Hp & Hl & Hf).
    cbn zeta. rewrite Hw, Ho, Hp, Hl, Hf. cbn. rewrite <- app_assoc. auto.
Qed.

Lemma foldl_Preload (rels : list string) :
  forall db,
    let db' := foldl Preload db rels in
    wheres db' = wheres db /\ orders db' = orders db
    /\ preloads db' = preloads db ++ rels /\ limit db' = limit db /\ offset db' = offset db.
Proof.
  induction rels as [|r rels IH]; intros db; cbn [foldl].
  - rewrite app_nil_r. auto.
  - destruct (IH (Preload db r)) as (Hw & Ho & Hp & Hl & Hf).
    cbn zeta. rewrite Hw, Ho, Hp, Hl, Hf. cbn. rewrite <- app_assoc. auto.
Qed.

Lemma insert_row_length (os : list (string * string)) (x : User) (l : list User) :
  length (sqlstore.insert_row os x l) = S (length l).
Proof.
  induction l as [|y l IH]; [reflexivity|]. cbn [sqlstore.insert_row].
  destruct (sqlstore.keys_compare os x y); cbn; rewrite ?IH; reflexivity.
Qed.

Lemma order_by_length (os : list (string * string)) (l : list User) :
  length (sqlstore.order_by os l) = length l.
Proof.
  unfold sqlstore.order_by. induction l as [|x l IH]; [reflexivity|].
  cbn [foldr]. rewrite insert_row_length, IH. reflexivity.
Qed.

Lemma order_by_nil (l : list User) : sqlstore.order_by [] l = l.
Proof.
  unfold sqlstore.order_by. induction l as [|x l IH]; [reflexivity|].
  cbn [foldr]. rewrite IH. destruct l; reflexivity.
Qed.

Lemma matching_session (s : Store) :
  sqlstore.matching session s = filter (fun u => DeletedAt u = None) (users s).
Proof.
  unfold sqlstore.matching. apply list_filter_iff. intros u.
  unfold sqlstore.selects, gorm.active. cbn. rewrite andb_true_r, bool_decide_eq_true. tauto.
Qed.

Lemma rollback_roundtrip (db tx : gormDB) :
  gorm.rollback db tx = with_data (snd (gorm.roundtrip tx)) (data db).
Proof. unfold gorm.rollback. destruct (gorm.roundtrip tx). reflexivity. Qed.

End Queries.

(** X12.  [BuildQuery] only ever extends the statement it is given.  The
    base's clauses stay in front; every sort is appended as an ORDER BY
    with its field and direction passed on as they are, every preload is
    appended by name, each condition contributes at most one WHERE
    predicate on its own field, and LIMIT and OFFSET are not set. *)
Theorem X12_BuildQuery_extends_the_base (db db' : Stmt) (qb : QueryBuilder) :
  gormtool.BuildQuery db (Some qb) = Done db' ->
  (exists ps,
     wheres db' = wheres db ++ ps
     /\ (length ps <= length (Conditions qb))%nat
     /\ forall p, p ∈ ps ->
          exists cond, cond ∈ Conditions qb
                       /\ sqlstore.field_of p = QueryCondition.Field cond)
  /\ orders db' = orders db
                  ++ map (fun s => (SortCondition.Field s, SortCondition.Direction s)) (Sorts qb)
  /\ preloads db' = preloads db ++ Preloads qb
  /\ limit db' = limit db /\ offset db' = offset db.
Proof.
  unfold gormtool.BuildQuery.
  destruct (gormtool.build_conditions db (Conditions qb)) as [db1|] eqn:E; [|discriminate].
  intros [= <-].
  apply build_conditions_shape in E as (Ho & Hp & Hl & Hf & ps & Hw & Hlen & Hps).
  destruct (foldl_Order (Sorts qb) db1) as (Hw2 & Ho2 & Hp2 & Hl2 & Hf2).
  destruct (foldl_Preload (Preloads qb)
              (foldl (fun db sort =>
                        Order db (SortCondition.Field sort) (SortCondition.Direction sort))
                     db1 (Sorts qb))) as (Hw3 & Ho3 & Hp3 & Hl3 & Hf3).
  cbn zeta in *. rewrite Hw3, Ho3, Hp3, Hl3, Hf3, Hw2, Ho2, Hp2, Hl2, Hf2, Ho, Hp, Hl, Hf.
  split; [exists ps; auto|auto].
Qed.

(** X13.  The number of rows on a page.  When the offset does not
    overflow, a successful listing carries exactly
    min(pageSize, max(0, total - (page - 1) * pageSize)) rows: full pages,
    then the remainder, then empty pages past the end, the reported total
    being the same on all of them. *)
Theorem X13_rows_on_a_page {B : Type} (t t' : CRUDTool) (c : Context B)
    (qb : option QueryBuilder) (db : Stmt) (r : Reply) :
  gormtool.BuildQuery session qb = Done db ->
  gormtool.GetByQueryBuilder t c qb = Done (t', r, None) ->
  gormtool.page_of c * gormtool.pageSize_of c <= GoInt.MaxInt ->
  let total := Z.of_nat (length (sqlstore.matching db (data (DB t)))) in
  Z.of_nat (length (reply_rows r))
  = Z.min (gormtool.pageSize_of c)
          (Z.max 0 (total - (gormtool.page_of c - 1) * gormtool.pageSize_of c))
  /\ (Pagination.Total <$> reply_page r) = Some total.
Proof.
  intros HB HG Hfit total.
  apply GetByQueryBuilder_inv in HG as (db0 & h1 & rows & HB0 & Hd1 & HP & ->).
  rewrite HB in HB0. injection HB0 as <-.
  apply preload_inv in HP as [Hlen _].
  split; [|reflexivity].
  cbn [reply_rows Written Data]. rewrite Hlen. unfold page_window.
  rewrite length_take, length_drop, order_by_length, (offset_of_exact c Hfit).
  fold total.
  pose proof (page_of_bounds c). pose proof (pageSize_of_bounds c).
  assert (0 <= (gormtool.page_of c - 1) * gormtool.pageSize_of c) by nia.
  subst total. lia.
Qed.

(** X14.  The route that lists all users shows the active users only, in
    the order of the table: the page is the window of the paging
    parameters over the rows whose deletion marker is not set, the total
    counts those rows, and the store is left as it was. *)
Theorem X14_getAllUsers_lists_active_users {B : Type} (cruder : CRUDTool) (c : Context B) :
  driver (DB cruder) = [] ->
  let active_users := filter (fun u => DeletedAt u = None) (users (data (DB cruder))) in
  exists cruder' r,
    main.getAllUsers cruder c = Done (cruder', r, None)
    /\ data (DB cruder') = data (DB cruder)
    /\ reply_rows r
       = take (Z.to_nat (gormtool.pageSize_of c))
              (drop (Z.to_nat (gormtool.offset_of c)) active_users)
    /\ (Pagination.Total <$> reply_page r) = Some (Z.of_nat (length active_users))
    /\ (forall u, u ∈ reply_rows r -> u ∈ users (data (DB cruder)) /\ DeletedAt u = None).
Proof.
  intros Hd active_users. unfold main.getAllUsers.
  set (qb := Some _).
  assert (HB : gormtool.BuildQuery session qb = Done session) by reflexivity.
  destruct (GetByQueryBuilder_total cruder c qb session HB) as (t' & r & HG); [|exact Hd|].
  { repeat split. }
  exists t', r. split; [exact HG|].
  apply GetByQueryBuilder_inv in HG as (db0 & h1 & rows & HB0 & Hd1 & HP & ->).
  rewrite HB in HB0. injection HB0 as <-.
  cbn [preloads session finisher.preload] in HP. injection HP as <- <-.
  unfold page_window. cbn [orders session]. rewrite order_by_nil, matching_session.
  fold active_users.
  split; [exact Hd1|]. split; [reflexivity|]. split; [reflexivity|].
  cbn [reply_rows Written Data]. intros u Hu.
  apply subseteq_take, subseteq_drop in Hu. apply list_elem_of_filter in Hu. tauto.
Qed.

(** X15.  The batch hard delete removes the rows whose key is listed and
    no other row; with an empty list it deletes nothing and answers 500,
    the ORM refusing a DELETE without a condition.  The cache is not
    touched in either case. *)
Theorem X15_batch_hard_delete_removes_the_listed (cruder : CRUDTool) (c : Context (list Z))
    (ids : list Z) :
  Body c = Some ids ->
  driver (DB cruder) = [] ->
  let '(cruder', r) := main.batchHardDelete cruder c in
  RedisClient cruder' = RedisClient cruder
  /\ (ids = [] ->
      r = {| Status := StatusInternalServerError; Written := H_msg ErrMissingWhereClause |}
      /\ data (DB cruder') = data (DB cruder))
  /\ (ids <> [] ->
      Status r = StatusOK
      /\ forall u, u ∈ users (data (DB cruder'))
                   <-> u ∈ users (data (DB cruder)) /\ ID u ∉ ids).
Proof.
  intros Hb Hd. unfold main.batchHardDelete, ShouldBindJSON, gormtool.WithTransaction,
    gorm.Transaction.
  rewrite Hb, (roundtrip_nil _ Hd). unfold gorm.UnscopedDelete.
  destruct ids as [|i ids].
  - cbn [Error gorm.failed]. rewrite rollback_roundtrip.
    cbn [with_DB DB RedisClient with_data data].
    split; [reflexivity|]. split; [split; reflexivity|]. intros H. now contradiction H.
  - rewrite (roundtrip_nil _ Hd). cbn [Error gorm.affected].
    rewrite roundtrip_nil by exact Hd.
    cbn [with_DB DB RedisClient Status with_data data with_users users].
    split; [reflexivity|]. split; [discriminate|]. intros _. split; [reflexivity|].
    intros u. rewrite list_elem_of_filter. unfold gorm.listed.
    rewrite bool_decide_eq_false. tauto.
Qed.

(** ** The INFO reply behind the metrics *)

Section Info.

Lemma append_cons (c : ascii) (a b : string) :
  (String c a ++ b)%string = String c (a ++ b)%string.
Proof. reflexivity. Qed.

Lemma append_nil (b : string) : (EmptyString ++ b)%string = b.
Proof. reflexivity. Qed.

Lemma has_char_app (c : ascii) (a b : string) :
  has_char c (a ++ b)%string = has_char c a || has_char c b.
Proof.
  induction a as [|d a IH]; [reflexivity|]. rewrite append_cons. cbn [has_char].
  rewrite IH, orb_assoc. reflexivity.
Qed.

Lemma SplitCRLF_last (l : string) :
  has_char gostrings.LF l = false -> gostrings.SplitCRLF l = [l].
Proof.
  induction l as [|a l IH]; [reflexivity|]. cbn [has_char]. intros H.
  apply orb_false_iff in H as [_ H]. cbn [gostrings.SplitCRLF].
  destruct l as [|d rest]; [reflexivity|].
  assert (Hd : Ascii.eqb d gostrings.LF = false).
  { cbn [has_char] in H. apply orb_false_iff in H. tauto. }
  rewrite Hd, andb_false_r, (IH H). reflexivity.
Qed.

Lemma SplitCRLF_line (l rest : string) :
  has_char gostrings.LF l = false ->
  gostrings.SplitCRLF (l ++ String gostrings.CR (String gostrings.LF rest))%string
  = l :: gostrings.SplitCRLF rest.
Proof.
  induction l as [|a l IH]; [reflexivity|]. cbn [has_char]. intros H.
  apply orb_false_iff in H as [_ H]. specialize (IH H).
  rewrite append_cons. cbn [gostrings.SplitCRLF].
  destruct l as [|d l'].
  - rewrite append_nil in *. rewrite IH.
    replace (Ascii.eqb gostrings.CR gostrings.LF) with false by reflexivity.
    rewrite andb_false_r. reflexivity.
  - rewrite append_cons in *.
    assert (Hd : Ascii.eqb d gostrings.LF = false).
    { cbn [has_char] in H. apply orb_false_iff in H. tauto. }
    rewrite Hd, andb_false_r, IH. reflexivity.
Qed.

Lemma SplitCRLF_join (lines : list string) :
  lines <> [] ->
  Forall (fun l => has_char gostrings.LF l = false) lines ->
  gostrings.SplitCRLF (join_crlf lines) = lines.
Proof.
  induction lines as [|l lines IH]; [congruence|]. intros _ H.
  apply Forall_cons in H as [Hl Hrest].
  destruct lines as [|l2 lines].
  - cbn [join_crlf]. exact (SplitCRLF_last l Hl).
  - change (join_crlf (l :: l2 :: lines))
      with (l ++ String gostrings.CR (String gostrings.LF (join_crlf (l2 :: lines))))%string.
    rewrite (SplitCRLF_line _ _ Hl), IH; [reflexivity|congruence|exact Hrest].
Qed.

Lemma CutColon_field (k v : string) :
  has_char ":" k = false -> gostrings.CutColon (k ++ String ":" v)%string = Some (k, v).
Proof.
  induction k as [|a k IH]; [reflexivity|]. cbn [has_char]. intros H.
  apply orb_false_iff in H as [Ha H]. rewrite append_cons. cbn [gostrings.CutColon].
  rewrite Ha, (IH H). reflexivity.
Qed.

Lemma render_one_line (l : InfoLine) :
  well_formed l -> has_char gostrings.LF (render l) = false.
Proof.
  destruct l as [title| |k v]; cbn [well_formed render].
  - intros H. cbn [has_char]. rewrite H. reflexivity.
  - reflexivity.
  - intros (Hk & Hv & _ & _). rewrite has_char_app. cbn [has_char]. rewrite Hk, Hv. reflexivity.
Qed.

Lemma add_line_render (m : gmap string string) (l : InfoLine) :
  well_formed l ->
  crud.add_line m (render l)
  = match l with Field k v => <[k := v]> m | _ => m end.
Proof.
  destruct l as [title| |k v]; cbn [well_formed render]; [reflexivity|reflexivity|].
  intros (_ & _ & Hc & Hh). unfold crud.add_line. rewrite (CutColon_field k v Hc).
  destruct k as [|a k]; [reflexivity|].
  rewrite append_cons. cbn [gostrings.HasPrefixHash String.eqb] in *. rewrite Hh. reflexivity.
Qed.

Lemma foldl_add_line (lines : list InfoLine) :
  Forall well_formed lines ->
  forall m,
    foldl crud.add_line m (map render lines)
    = foldl (fun m l => match l with Field k v => <[k := v]> m | _ => m end) m lines.
Proof.
  induction 1 as [|l lines Hl _ IH]; intros m; [reflexivity|].
  cbn [map foldl]. rewrite (add_line_render m l Hl). apply IH.
Qed.

End Info.

(** X16.  [getRedisStats] reads the server's INFO reply back into its
    fields.  For a reply made of section headings, blank lines and
    key:value lines separated by CR LF, the map returned holds exactly the
    fields: headings and blank lines contribute nothing, a value is
    everything after the first colon, and of two lines with the same key
    the later one wins. *)
Theorem X16_getRedisStats_reads_the_fields (t : CRUDTool) (rdb : Redis)
    (lines : list InfoLine) :
  RedisClient t = Some rdb ->
  alive rdb = true ->
  Forall well_formed lines ->
  crud.getRedisStats t (join_crlf (map render lines)) = StatsFields (fields_of lines).
Proof.
  intros Hr Ha Hwf. unfold crud.getRedisStats, crud.parse_info, fields_of.
  rewrite Hr, Ha. cbn [negb]. f_equal.
  destruct lines as [|l lines]; [reflexivity|].
  rewrite SplitCRLF_join.
  - apply foldl_add_line. exact Hwf.
  - discriminate.
  - apply Forall_forall. intros s Hs. rewrite list_elem_of_In, in_map_iff in Hs.
    destruct Hs as (x & <- & Hx). apply render_one_line.
    rewrite Forall_forall in Hwf. apply Hwf. rewrite list_elem_of_In. exact Hx.
Qed.

(** ** The routes' answers on the remaining paths *)

Section Answers.

Lemma find_active_some (s : Store) (id : Z) (u : User) :
  u ∈ users s -> ID u = id -> DeletedAt u = None ->
  is_Some (gorm.find_active s id).
Proof.
  intros Hu Hid Hact. destruct (gorm.find_active s id) eqn:E; [eexists; reflexivity|].
  exfalso. unfold gorm.find_active in E.
  apply (head_filter_none _ _ E u Hu). unfold gorm.has_id, gorm.active.
  rewrite (proj2 (Z.eqb_eq _ _) Hid), (bool_decide_eq_true_2 _ Hact). reflexivity.
Qed.

Lemma roundtrip_failing (h : gormDB) :
  fst (gorm.roundtrip h) = true ->
  exists h', gorm.roundtrip h = (true, h') /\ data h' = data h.
Proof.
  intros H. pose proof (roundtrip_data h) as Hd.
  destruct (gorm.roundtrip h) as [b h']. cbn in *. subst b. eauto.
Qed.

End Answers.

(** X17.  The route GET /users/:id of main.go, whose tool has no cache
    client.  For a well-formed id it answers 200 exactly when the store
    holds an active record with that key, and 404 otherwise; the record
    sent is a row of the store with that key, its tags not loaded; the
    tool is left as it was. *)
Theorem X17_getUserByID_contract {B : Type} (cruder : CRUDTool) (c : Context B) (id : Z) :
  RedisClient cruder = None ->
  driver (DB cruder) = [] ->
  strconv.Atoi (Param c "id") = (id, None) ->
  let '(cruder', r) := routes.getUserByID cruder c in
  cruder' = cruder
  /\ (Status r = StatusOK \/ r = respond StatusNotFound "记录不存在" NoData)
  /\ (Status r = StatusOK
      <-> exists u, u ∈ users (data (DB cruder)) /\ ID u = id /\ DeletedAt u = None)
  /\ (Status r = StatusOK ->
      exists u, r = respond StatusOK "查询成功" (OneUser (gorm.row u))
                /\ u ∈ users (data (DB cruder)) /\ ID u = id /\ DeletedAt u = None).
Proof.
  intros Hr Hd HA. unfold routes.getUserByID, gormtool.GetByID, gorm.First.
  rewrite HA. unfold gormtool.GetFromCache, gormtool.SetToCache. rewrite Hr.
  rewrite (roundtrip_nil _ Hd). cbn [with_DB RedisClient]. rewrite Hr.
  destruct (gorm.find_active (data (DB cruder)) id) as [u|] eqn:Ef.
  - apply find_active_spec in Ef as (Hin & Hid & Hact).
    cbn [fst Status respond]. rewrite with_DB_same. split; [reflexivity|]. split; [left; reflexivity|].
    split; [split; eauto|]. intros _. eauto 10.
  - cbn [fst]. rewrite not_found_reply, with_DB_same. split; [reflexivity|]. split; [right; reflexivity|].
    split; [split|]; try discriminate.
    intros (u & Hin & Hid & Hact).
    destruct (find_active_some _ _ _ Hin Hid Hact) as [x Hx]. congruence.
Qed.

(** X18.  A body that does not bind is refused with 400 and nothing is
    written, by [Create], by the cascade create and by the batch delete.
    [UpdateByID] looks at the body only after it has loaded the record:
    for a record that is not there it answers 404 even then. *)
Theorem X18_unbindable_body_is_refused (t : CRUDTool) (cu : Context UserJSON)
    (cp : Context payload) (cb : Context (list Z)) (id : Z) :
  Body cu = None -> Body cp = None -> Body cb = None ->
  strconv.Atoi (Param cu "id") = (id, None) ->
  driver (DB t) = [] ->
  crud.Create t cu = (t, respond StatusBadRequest "参数错误" NoData, Some ErrBind)
  /\ main.createUserWithEverything t cp
     = (t, {| Status := StatusBadRequest; Written := H_msg ErrBind |})
  /\ main.batchHardDelete t cb
     = (t, {| Status := StatusBadRequest; Written := H_msg ErrBind |})
  /\ gormtool.UpdateByID t cu
     = match gorm.find_active (data (DB t)) id with
       | Some _ => (t, respond StatusBadRequest "参数错误" NoData, Some ErrBind)
       | None => (t, respond StatusNotFound "记录不存在" NoData, Some ErrRecordNotFound)
       end.
Proof.
  intros Hu Hp Hb HA Hd.
  unfold crud.Create, main.createUserWithEverything, main.batchHardDelete,
    gormtool.UpdateByID, gorm.First, ShouldBindJSON.
  rewrite Hu, Hp, Hb, HA, (roundtrip_nil _ Hd).
  repeat split.
  destruct (gorm.find_active (data (DB t)) id); rewrite ?not_found_reply, with_DB_same;
    reflexivity.
Qed.

(** X19.  When the driver reports an error for a handler's statement, the
    handler answers 500 with its own message and returns the driver's
    error; the data of the store and the cache are as they were. *)
Theorem X19_driver_error_is_a_500 {B : Type} (t : CRUDTool) (c : Context B) (id : Z)
    (rels : list string) :
  strconv.Atoi (Param c "id") = (id, None) ->
  fst (gorm.roundtrip (DB t)) = true ->
  cached t id = None ->
  let failed message (x : CRUDTool * Reply * option error) :=
    snd (fst x) = respond StatusInternalServerError message NoData
    /\ snd x = Some ErrDriver
    /\ data (DB (fst (fst x))) = data (DB t)
    /\ RedisClient (fst (fst x)) = RedisClient t in
  failed "查询失败" (gormtool.GetByID t c)
  /\ failed "查询失败" (crud.GetByIDWithSoftDelete t c rels)
  /\ failed "删除失败" (gormtool.SoftDeleteByID t c)
  /\ failed "删除失败" (gormtool.HardDeleteByID t c)
  /\ failed "恢复失败" (gormtool.RestoreSoftDelete t c).
Proof.
  intros HA Hbad Hc failed. subst failed. cbv beta.
  destruct (roundtrip_failing _ Hbad) as (h & Hrt & Hdata).
  unfold gormtool.GetByID, crud.GetByIDWithSoftDelete, gormtool.SoftDeleteByID,
    gormtool.HardDeleteByID, gormtool.RestoreSoftDelete,
    gorm.First, orm.UnscopedFirst, gorm.Delete, gorm.UnscopedDelete, gorm.UnscopedRestore.
  rewrite HA, (GetFromCache_absent _ _ _ (or_introl Hc)), Hrt.
  cbn. auto 20.
Qed.


(** ** What reaches the log *)

Section Logging.

Lemma Atoi_errors (s : string) (e : error) :
  snd (strconv.Atoi s) = Some e -> e = ErrSyntax \/ e = ErrRange.
Proof.
  unfold strconv.Atoi. destruct (strconv.sign s) as [neg body].
  destruct body as [|ch body]; [cbn; intros [= <-]; auto|].
  destruct (strconv.digits _ 0) as [n|]; [|cbn; intros [= <-]; auto].
  cbv zeta. destruct (GoInt.MaxInt <? _); [cbn; intros [= <-]; auto|].
  destruct (_ <? GoInt.MinInt); [cbn; intros [= <-]; auto|].
  cbn. discriminate.
Qed.

(** A handler that returned an error other than strconv's got past the
    parsing of the id. *)
Lemma past_the_id {B} (c : Context B) (A : Type)
    (h : Z -> CRUDTool * A * option error) (t : CRUDTool) (r : A) (e : error) :
  snd (match strconv.Atoi (Param c "id") with
       | (_, Some err) => (t, r, Some err)
       | (id, None) => h id
       end) = Some e ->
  e <> ErrSyntax -> e <> ErrRange ->
  deferred.by_id c = None.
Proof.
  unfold deferred.by_id. destruct (strconv.Atoi (Param c "id")) as [id [err|]] eqn:HA;
    [|reflexivity].
  cbn [snd]. intros [= <-] Hs Hr. exfalso.
  destruct (Atoi_errors (Param c "id") err) as [->| ->]; [rewrite HA; reflexivity| |];
    congruence.
Qed.

End Logging.

(** X20.  Failures after the id check are logged as successes.  The
    entry a handler writes is built from a variable that only the parsing
    of the id assigns: whenever one of the six handlers that take an id
    returns an error other than strconv's (record not found, a driver
    error, a body that does not bind, a failed save), the entry written
    is the success entry at level INFO.  [Create] and [GetByQueryBuilder]
    write the success entry whatever they return, the latter also when
    it panics. *)
Theorem X20_later_failures_are_logged_as_success {B : Type} (t : CRUDTool) (c : Context B)
    (cu : Context UserJSON) (qb : option QueryBuilder) (rels : list string) (elapsed : Z) :
  let quiet (operation : string) (x : deferred.traced (CRUDTool * Reply * option error)) :=
    forall e, snd (fst x) = Some e -> e <> ErrSyntax -> e <> ErrRange ->
              snd x = [success_entry operation "*models.User" elapsed] in
  quiet "get_by_id" (deferred.GetByID true elapsed t c)
  /\ quiet "get_by_id_soft_delete" (deferred.GetByIDWithSoftDelete true elapsed t c rels)
  /\ quiet "update_by_id" (deferred.UpdateByID true elapsed t cu)
  /\ quiet "soft_delete" (deferred.SoftDeleteByID true elapsed t c)
  /\ quiet "hard_delete" (deferred.HardDeleteByID true elapsed t c)
  /\ quiet "restore" (deferred.RestoreSoftDelete true elapsed t c)
  /\ snd (deferred.Create true elapsed t cu) = [success_entry "create" "*models.User" elapsed]
  /\ snd (deferred.GetByQueryBuilder true elapsed t c qb)
     = [success_entry "get_by_query_builder" "*[]models.User" elapsed].
Proof.
  intros quiet. subst quiet. cbv beta.
  unfold deferred.GetByID, deferred.GetByIDWithSoftDelete, deferred.UpdateByID,
    deferred.SoftDeleteByID, deferred.HardDeleteByID, deferred.RestoreSoftDelete.
  cbn [fst snd].
  repeat split; try reflexivity; intros e He Hs Hr.
  - unfold gormtool.GetByID in He. rewrite (past_the_id _ _ _ _ _ _ He Hs Hr). reflexivity.
  - unfold crud.GetByIDWithSoftDelete in He.
    rewrite (past_the_id _ _ _ _ _ _ He Hs Hr). reflexivity.
  - unfold gormtool.UpdateByID in He. rewrite (past_the_id _ _ _ _ _ _ He Hs Hr). reflexivity.
  - unfold gormtool.SoftDeleteByID in He.
    rewrite (past_the_id _ _ _ _ _ _ He Hs Hr). reflexivity.
  - unfold gormtool.HardDeleteByID in He.
    rewrite (past_the_id _ _ _ _ _ _ He Hs Hr). reflexivity.
  - unfold gormtool.RestoreSoftDelete in He.
    rewrite (past_the_id _ _ _ _ _ _ He Hs Hr). reflexivity.
Qed.


(** * The theorems at concrete requests *)

(** Paging parameters that do not parse, and a page far enough for the
    offset to leave the range of [int]. *)
Example paging_defaults :
  let c := sample.listing [("page", "abc"); ("pagesize", "-3")] in
  gormtool.page_of c = 1 /\ gormtool.pageSize_of c = 10 /\ gormtool.offset_of c = 0.
Proof. vm_compute. repeat split; reflexivity. Qed.


Example like_on_a_number_panics :
  gormtool.BuildQuery session
    (Some {| Conditions := [ {| QueryCondition.Field := "name";
                                QueryCondition.Operator := "LIKE";
                                QueryCondition.Value := VInt 7 |} ];
             Sorts := []; Preloads := [] |}) = Panic.
Proof. reflexivity. Qed.

Lemma C5_pager_rows_and_total_witness :
  gormtool.BuildQuery session sample.adults = Done sample.adults_stmt
  /\ exists t1 r,
       gormtool.GetByQueryBuilder (sample.tool [sample.alice; sample.bob])
         sample.second_page sample.adults = Done (t1, r, None)
       /\ Z.of_nat (length (reply_rows r)) <= 1
       /\ (Pagination.Total <$> reply_page r) = Some 2.
Proof.
  assert (HB : gormtool.BuildQuery session sample.adults = Done sample.adults_stmt)
    by reflexivity.
  split; [exact HB|].
  destruct (C5_pager_rows_and_total (sample.tool [sample.alice; sample.bob])
              sample.second_page sample.first_page sample.adults sample.adults_stmt HB)
    as (_ & _ & Hrows & _ & Hruns).
  destruct Hruns as (t1 & r & Hrun).
  - repeat split; reflexivity.
  - reflexivity.
  - exists t1, r. split; [exact Hrun|]. exact (Hrows t1 r Hrun).
Defined.




Lemma C3_cascade_create_rolls_back_witness :
  (* the profile step fails: its key is taken *)
  (exists cruder',
     main.createUserWithEverything (sample.profiled_tool []) (sample.create sample.carol)
     = (cruder', {| Status := StatusInternalServerError; Written := H_msg ErrConstraint |})
     /\ data (DB cruder') = data (DB (sample.profiled_tool [])))
  (* the tags step fails: the driver errs on its first statement *)
  /\ (exists cruder',
        main.createUserWithEverything (sample.profiled_tool [false; false; false; true])
          (sample.create sample.carol_fresh)
        = (cruder', {| Status := StatusInternalServerError; Written := H_msg ErrDriver |})
        /\ data (DB cruder') = data (DB (sample.profiled_tool [false; false; false; true]))).
Proof.
  split.
  - pose (tx0 := DB (sample.profiled_tool [])).
    pose (created := gorm.CreateUser tx0 (payload_User sample.carol)).
    destruct (C3_cascade_create_rolls_back (sample.profiled_tool [])
                (sample.create sample.carol) sample.carol
                tx0 (fst (fst created)) (snd created) ErrConstraint
                eq_refl eq_refl eq_refl)
      as (cruder' & Hrun & Hdata & _).
    + left. eexists _, _. vm_compute. reflexivity.
    + exists cruder'. split; assumption.
  - pose (tx0 := snd (gorm.roundtrip (DB (sample.profiled_tool [false; false; false; true])))).
    pose (created := gorm.CreateUser tx0 (payload_User sample.carol_fresh)).
    destruct (C3_cascade_create_rolls_back (sample.profiled_tool [false; false; false; true])
                (sample.create sample.carol_fresh) sample.carol_fresh
                tx0 (fst (fst created)) (snd created) ErrDriver
                eq_refl eq_refl eq_refl)
      as (cruder' & Hrun & Hdata & _).
    + right. eexists _, _, _, _. split; vm_compute; reflexivity.
    + exists cruder'. split; assumption.
Defined.

(** ** The further properties at concrete requests *)


Lemma X3_soft_deleted_record_visibility_witness :
  let t := sample.tool [sample.alice_deleted; sample.bob] in
  let c := sample.by_id (B := unit) "1" None in
  gormtool.GetByID t c
  = (t, respond StatusNotFound "记录不存在" NoData, Some ErrRecordNotFound)
  /\ gormtool.UpdateByID t sample.rename
     = (t, respond StatusNotFound "记录不存在" NoData, Some ErrRecordNotFound)
  /\ exists m,
       crud.GetByIDWithSoftDelete t c ["Tags"]
       = (t, respond StatusOK "查询成功" (OneUser m), None)
       /\ DeletedAt m = Some 50 /\ Name m = "Alice".
Proof.
  destruct (X3_soft_deleted_record_visibility
              (sample.tool [sample.alice_deleted; sample.bob])
              (sample.by_id (B := unit) "1" None) sample.rename 1 sample.alice_deleted
              ["Tags"] eq_refl eq_refl eq_refl eq_refl eq_refl)
    as (Hget & Hupd & m & Hshow & _ & Hdel & _ & Hname & _).
  - intros u Hu Hid.
    apply elem_of_cons in Hu as [->|Hu]; [discriminate|].
    apply elem_of_cons in Hu as [->|Hu]; [discriminate Hid|inversion Hu].
  - reflexivity.
  - split; [exact Hget|]. split; [exact Hupd|].
    exists m. split; [exact Hshow|]. split; [exact Hdel|exact Hname].
Defined.

Lemma X4_hard_delete_is_final_witness :
  let c := sample.by_id (B := unit) "1" None in
  exists t1,
    gormtool.HardDeleteByID (sample.tool [sample.alice_deleted; sample.bob]) c
    = (t1, respond StatusOK "永久删除成功" NoData, None)
    /\ sample.bob ∈ users (data (DB t1))
    /\ gormtool.RestoreSoftDelete t1 c
       = (t1, respond StatusNotFound "记录不存在" NoData, Some ErrRecordNotFound)
    /\ crud.GetByIDWithSoftDelete t1 c []
       = (t1, respond StatusNotFound "记录不存在" NoData, Some ErrRecordNotFound).
Proof.
  destruct (X4_hard_delete_is_final (sample.tool [sample.alice_deleted; sample.bob])
              (sample.by_id (B := unit) "1" None) 1 [] eq_refl eq_refl)
    as (t1 & Hrun & Hrows & Hrestore & Hshow).
  - exists sample.alice_deleted. split; [left|reflexivity].
  - exists t1. split; [exact Hrun|]. split; [|split; assumption].
    apply Hrows. split; [right; left|discriminate].
Defined.


Lemma X6_GetByID_reads_through_witness :
  let c := sample.by_id (B := unit) "3" None in
  exists t1,
    gormtool.GetByID (fixtures.live_tool [sample.alice; sample.bob]) c
    = (t1, respond StatusOK "查询成功" (OneUser sample.bob), None)
    /\ cached t1 3 = Some (Encoded sample.bob)
    /\ gormtool.GetByID t1 c
       = (t1, respond StatusOK "查询成功（缓存）" (OneUser sample.bob), None).
Proof.
  destruct (X6_GetByID_reads_through (fixtures.live_tool [sample.alice; sample.bob])
              (sample.by_id (B := unit) "3" None) 3 sample.bob eq_refl)
    as (t1 & Hmiss & _ & Hentry & Hhit).
  - eexists. split; reflexivity.
  - reflexivity.
  - reflexivity.
  - reflexivity.
  - exists t1. split; [exact Hmiss|]. split; [exact Hentry|exact Hhit].
Defined.



Lemma X10_cascade_create_succeeds_witness :
  exists cruder' u p,
    main.createUserWithEverything (sample.profiled_tool []) (sample.create sample.carol_fresh)
    = (cruder', {| Status := StatusCreated; Written := H_data u |})
    /\ 1 < ID u
    /\ Name u = "Carol"
    /\ users (data (DB cruder')) = [sample.alice; gorm.row u]
    /\ Profile_UserID p = ID u.
Proof.
  destruct (X10_cascade_create_succeeds (sample.profiled_tool [])
              (sample.create sample.carol_fresh) sample.carol_fresh
              eq_refl eq_refl eq_refl eq_refl)
    as (cruder' & u & p & Hrun & Hfresh & Hname & _ & Husers & _ & Hpoints & _).
  exists cruder', u, p. split; [exact Hrun|].
  split; [apply (Hfresh sample.alice); left|].
  split; [exact Hname|]. split; [exact Husers|exact Hpoints].
Defined.

Lemma X11_Create_inserts_or_refuses_witness :
  exists t' u,
    crud.Create (sample.tool [sample.alice; sample.bob]) fixtures.new_user
    = (t', respond StatusCreated "创建成功" (OneUser u), None)
    /\ users (data (DB t')) = [sample.alice; sample.bob; gorm.row u]
    /\ Name u = "Dora" /\ Age u = 22
    /\ 3 < ID u.
Proof.
  destruct (X11_Create_inserts_or_refuses (sample.tool [sample.alice; sample.bob])
              fixtures.new_user
              {| json_ID := None; json_DeletedAt := None;
                 json_Name := Some "Dora"; json_Age := Some 22; json_Tags := None |}
              eq_refl eq_refl)
    as (Hzero & _ & _).
  destruct (Hzero eq_refl) as (t' & u & (Hrun & Husers & Hname & Hage) & Hfresh).
  exists t', u. split; [exact Hrun|]. split; [exact Husers|].
  split; [exact Hname|]. split; [exact Hage|].
  apply (Hfresh sample.bob). right. left.
Defined.

Lemma X12_BuildQuery_extends_the_base_witness :
  gormtool.BuildQuery session (Some fixtures.adults_qb) = Done sample.adults_stmt
  /\ orders sample.adults_stmt = [("name", "DESC")]
  /\ preloads sample.adults_stmt = ["Tags"]
  /\ limit sample.adults_stmt = None /\ offset sample.adults_stmt = None.
Proof.
  assert (HB : gormtool.BuildQuery session (Some fixtures.adults_qb) = Done sample.adults_stmt)
    by reflexivity.
  destruct (X12_BuildQuery_extends_the_base session sample.adults_stmt fixtures.adults_qb HB)
    as (_ & Ho & Hp & Hl & Hf).
  split; [exact HB|]. split; [exact Ho|]. split; [exact Hp|]. split; [exact Hl|exact Hf].
Defined.

Lemma X13_rows_on_a_page_witness :
  exists t' r,
    gormtool.GetByQueryBuilder (sample.tool [sample.alice; sample.bob])
      fixtures.far_page sample.adults = Done (t', r, None)
    /\ Z.of_nat (length (reply_rows r)) = 0
    /\ (Pagination.Total <$> reply_page r) = Some 2.
Proof.
  assert (HB : gormtool.BuildQuery session sample.adults = Done sample.adults_stmt)
    by reflexivity.
  destruct (GetByQueryBuilder_total (sample.tool [sample.alice; sample.bob])
              fixtures.far_page sample.adults sample.adults_stmt HB)
    as (t' & r & Hrun).
  - repeat split; reflexivity.
  - reflexivity.
  - exists t', r. split; [exact Hrun|].
    refine (X13_rows_on_a_page (sample.tool [sample.alice; sample.bob]) t'
              fixtures.far_page sample.adults sample.adults_stmt r HB Hrun _).
    vm_compute. discriminate.
Defined.

Lemma X14_getAllUsers_lists_active_users_witness :
  exists cruder' r,
    main.getAllUsers (sample.tool [sample.alice_deleted; sample.bob]) sample.first_page
    = Done (cruder', r, None)
    /\ reply_rows r = [sample.bob]
    /\ (Pagination.Total <$> reply_page r) = Some 1.
Proof.
  destruct (X14_getAllUsers_lists_active_users
              (sample.tool [sample.alice_deleted; sample.bob]) sample.first_page eq_refl)
    as (cruder' & r & Hrun & _ & Hrows & Htotal & _).
  exists cruder', r. split; [exact Hrun|]. split; [exact Hrows|exact Htotal].
Defined.

Lemma X15_batch_hard_delete_removes_the_listed_witness :
  let '(cruder', r) :=
    main.batchHardDelete (sample.tool [sample.alice; sample.bob]) fixtures.batch_of_one in
  Status r = StatusOK
  /\ (sample.bob ∈ users (data (DB cruder')))
  /\ ~ (sample.alice ∈ users (data (DB cruder'))).
Proof.
  pose proof (X15_batch_hard_delete_removes_the_listed
                (sample.tool [sample.alice; sample.bob]) fixtures.batch_of_one [1]
                eq_refl eq_refl) as H.
  destruct (main.batchHardDelete _ _) as [cruder' r].
  destruct H as (_ & _ & H). destruct H as [Hok Hrows]; [discriminate|].
  split; [exact Hok|]. split.
  - apply Hrows. split; [right; left|]. intros Hin.
    apply list_elem_of_singleton in Hin. discriminate Hin.
  - intros Hin. apply Hrows in Hin as [_ Hin]. apply Hin. left.
Defined.

Lemma X16_getRedisStats_reads_the_fields_witness :
  exists m,
    crud.getRedisStats (fixtures.live_tool []) (join_crlf (map render fixtures.info_reply))
    = StatsFields m
    /\ m !! "redis_version" = Some "7.2.4"
    /\ m !! "tcp_port" = Some "6380"
    /\ m !! " Server" = None.
Proof.
  exists (fields_of fixtures.info_reply). split.
  - refine (X16_getRedisStats_reads_the_fields (fixtures.live_tool []) _
              fixtures.info_reply eq_refl eq_refl _).
    repeat constructor.
  - split; [|split]; vm_compute; reflexivity.
Defined.

Lemma X17_getUserByID_contract_witness :
  routes.getUserByID (sample.tool [sample.alice_deleted; sample.bob])
    (sample.by_id (B := unit) "3" None)
  = (sample.tool [sample.alice_deleted; sample.bob],
     respond StatusOK "查询成功" (OneUser sample.bob))
  /\ snd (routes.getUserByID (sample.tool [sample.alice_deleted; sample.bob])
            (sample.by_id (B := unit) "1" None))
     = respond StatusNotFound "记录不存在" NoData.
Proof.
  split.
  - pose proof (X17_getUserByID_contract (sample.tool [sample.alice_deleted; sample.bob])
                  (sample.by_id (B := unit) "3" None) 3 eq_refl eq_refl eq_refl) as H.
    destruct (routes.getUserByID _ _) as [cruder' r].
    destruct H as (-> & _ & Hiff & Hsent).
    assert (Hok : Status r = StatusOK).
    { apply Hiff. exists sample.bob. split; [right; left|]. split; reflexivity. }
    destruct (Hsent Hok) as (u & -> & Hu & Hid & _). do 3 f_equal.
    apply elem_of_cons in Hu as [->|Hu]; [discriminate Hid|].
    apply elem_of_cons in Hu as [->|Hu]; [reflexivity|inversion Hu].
  - pose proof (X17_getUserByID_contract (sample.tool [sample.alice_deleted; sample.bob])
                  (sample.by_id (B := unit) "1" None) 1 eq_refl eq_refl eq_refl) as H.
    destruct (routes.getUserByID _ _) as [cruder' r].
    destruct H as (_ & [Hok| ->] & Hiff & _); [|reflexivity].
    exfalso. apply Hiff in Hok as (u & Hu & Hid & Hact).
    apply elem_of_cons in Hu as [->|Hu]; [discriminate Hact|].
    apply elem_of_cons in Hu as [->|Hu]; [discriminate Hid|inversion Hu].
Defined.

Lemma X18_unbindable_body_is_refused_witness :
  let t := sample.tool [sample.alice] in
  crud.Create t (sample.by_id "1" None)
  = (t, respond StatusBadRequest "参数错误" NoData, Some ErrBind)
  /\ gormtool.UpdateByID t (sample.by_id "1" None)
     = (t, respond StatusBadRequest "参数错误" NoData, Some ErrBind)
  /\ gormtool.UpdateByID t (sample.by_id "2" None)
     = (t, respond StatusNotFound "记录不存在" NoData, Some ErrRecordNotFound).
Proof.
  destruct (X18_unbindable_body_is_refused (sample.tool [sample.alice])
              (sample.by_id "1" None) (sample.by_id "1" None) (sample.by_id "1" None) 1
              eq_refl eq_refl eq_refl eq_refl eq_refl) as (Hcreate & _ & _ & Hfound).
  destruct (X18_unbindable_body_is_refused (sample.tool [sample.alice])
              (sample.by_id "2" None) (sample.by_id "1" None) (sample.by_id "1" None) 2
              eq_refl eq_refl eq_refl eq_refl eq_refl) as (_ & _ & _ & Hmissing).
  split; [exact Hcreate|]. split; [exact Hfound|exact Hmissing].
Defined.

Lemma X19_driver_error_is_a_500_witness :
  let t := fixtures.failing_tool [sample.alice] in
  let c := sample.by_id (B := unit) "1" None in
  snd (fst (gormtool.SoftDeleteByID t c))
  = respond StatusInternalServerError "删除失败" NoData
  /\ snd (fst (gormtool.GetByID t c))
     = respond StatusInternalServerError "查询失败" NoData
  /\ users (data (DB (fst (fst (gormtool.SoftDeleteByID t c))))) = [sample.alice].
Proof.
  destruct (X19_driver_error_is_a_500 (fixtures.failing_tool [sample.alice])
              (sample.by_id (B := unit) "1" None) 1 [] eq_refl eq_refl eq_refl)
    as ((Hget & _) & _ & (Hdel & _ & Hdata & _) & _).
  split; [exact Hdel|]. split; [exact Hget|]. cbv zeta. rewrite Hdata. reflexivity.
Defined.

(** GET /users/2 on a store without record 2: answered 404, returned as
    an error, logged as a success. *)
Example a_missing_record_is_logged_as_success :
  let '(_, r, err, entries) :=
    deferred.GetByID true 7 (sample.tool [sample.alice]) (sample.by_id (B := unit) "2" None) in
  r = respond StatusNotFound "记录不存在" NoData
  /\ err = Some ErrRecordNotFound
  /\ entries = [success_entry "get_by_id" "*models.User" 7].
Proof. repeat split. Qed.
